(** * StarForge time model: Clock, Timer, throttle and time-period conversions

    A shallow embedding of [src/system/timing.ts] and [src/system/throttler.ts].

    Modelling conventions.
    - A JavaScript [number] is modelled twice.  In the main embedding a number
      that carries a time, a scale or a duration is an exact rational ([Q],
      compared with [==]); the NaN produced by arithmetic on an [undefined]
      timestamp is kept, as [None].  It is used for the properties in which
      rounding plays no part: the result is a value that the code copies, or
      the very expression that the code evaluates.
    - Module [Binary64] embeds the conversions, [formatPeriod], [Timer] and
      the time arithmetic of [Clock] once more, on IEEE-754 doubles, which is
      what a [number] is at run time.  It settles what depends on rounding.
    - Platform reads ([Date.now()], [performance.now()]) are explicit inputs:
      every operation receives the readings of the instant at which it runs.
    - Objects mutated in place become explicit state passing; the [Timer]
      objects live in a store addressed by reference, so that the handle
      returned to a caller and the entry of [Clock.timers] alias each other.
    - [setTimeout]/[setInterval]/[clearTimeout] run on a small deterministic
      event loop with a millisecond clock. *)

From Stdlib Require Import ZArith QArith Qfield Lia List Bool String.
From Stdlib Require Import Floats.
From stdpp Require Import gmap strings list.
From stdpp Require Import pretty.

Local Open Scope Q_scope.

(** ** Thrown errors *)

(** [throw new Error()]: the only exception the module raises. *)
Inductive exn : Type := Error.

Inductive result (A : Type) : Type :=
| Ok (a : A)
| Throw (e : exn).
Arguments Ok {A} a.
Arguments Throw {A} e.

(** Sequencing of calls that may throw: an exception skips the rest. *)
#[global] Instance result_bind : MBind result := fun A B k r =>
  match r with
  | Ok a => k a
  | Throw e => Throw e
  end.

(** ** Time units *)

(** [enum TimeUnit]: a numeric enum, so that at run time a unit is a number and
    any number can reach [convert]. *)
Module TimeUnit.
Definition Milliseconds : Z := 0.
Definition Seconds : Z := 1.
Definition Minutes : Z := 2.
Definition Hours : Z := 3.
Definition Days : Z := 4.
End TimeUnit.

(** The five members of the enum. *)
Definition recognized (unit : Z) : Prop :=
  unit = TimeUnit.Milliseconds \/ unit = TimeUnit.Seconds \/
  unit = TimeUnit.Minutes \/ unit = TimeUnit.Hours \/ unit = TimeUnit.Days.

(** [convert(units, unit, op)]: the [switch] on the unit, whose [default]
    branch throws.  A caller that leaves the unit out passes
    [TimeUnit.Milliseconds], the default value of the parameter. *)
Definition convert (units : Q) (unit : Z) (op : Q -> Q -> Q) : result Q :=
  if (unit =? TimeUnit.Milliseconds)%Z then Ok units
  else if (unit =? TimeUnit.Seconds)%Z then Ok (op units 1000)
  else if (unit =? TimeUnit.Minutes)%Z then Ok (op units 60000)
  else if (unit =? TimeUnit.Hours)%Z then Ok (op units 3600000)
  else if (unit =? TimeUnit.Days)%Z then Ok (op units 86400000)
  else Throw Error.

Definition timeMsToUnits (timeMs : Q) (unit : Z) : result Q :=
  convert timeMs unit (fun ms div => ms / div).

Definition unitsToMs (units : Q) (baseUnit : Z) : result Q :=
  convert units baseUnit (fun units mult => units * mult).

(** ** Structured periods *)

(** Modelled from the spec: the interface [TimePeriod], imported from
    [domain/models], which is not among the sources.  The spec describes it as
    a structured period of days, hours, minutes, seconds and millis;
    [timing.ts] reads and assigns these five fields and builds [{}] and
    [{days: 1}], so every component is an optional number. *)
Record TimePeriod : Type := {
  days : option Q;
  hours : option Q;
  minutes : option Q;
  seconds : option Q;
  millis : option Q
}.

(** The object literal [{}]. *)
Definition emptyPeriod : TimePeriod :=
  {| days := None; hours := None; minutes := None; seconds := None; millis := None |}.

(** [x ? a : 0] on an optional number: [undefined] and [0] are falsy. *)
Definition ifTruthy (x : option Q) (f : Q -> Q) : Q :=
  match x with
  | Some v => if Qeq_bool v 0 then 0 else f v
  | None => 0
  end.

(** The helper closures of [timePeriodToMs]. *)
Definition secondsToMillis (seconds : option Q) : Q := ifTruthy seconds (fun s => s * 1000).
Definition minutesToMillis (minutes : option Q) : Q :=
  ifTruthy minutes (fun m => m * secondsToMillis (Some 60)).
Definition hoursToMillis (hours : option Q) : Q :=
  ifTruthy hours (fun h => h * minutesToMillis (Some 60)).
Definition daysToMillis (days : option Q) : Q :=
  ifTruthy days (fun d => d * hoursToMillis (Some 24)).
Definition millisToMills (millis : option Q) : Q := ifTruthy millis (fun m => m).

Definition timePeriodToMs (timePeriod : TimePeriod) : Q :=
  daysToMillis (days timePeriod) + hoursToMillis (hours timePeriod)
  + minutesToMillis (minutes timePeriod) + secondsToMillis (seconds timePeriod)
  + millisToMills (millis timePeriod).

Definition timePeriodToUnits (timePeriod : TimePeriod) (unit : Z) : result Q :=
  timeMsToUnits (timePeriodToMs timePeriod) unit.

(** Field assignments [period.f = v] on the object under construction. *)
Definition setDays (v : Q) (p : TimePeriod) : TimePeriod :=
  {| days := Some v; hours := hours p; minutes := minutes p; seconds := seconds p;
     millis := millis p |}.
Definition setHours (v : Q) (p : TimePeriod) : TimePeriod :=
  {| days := days p; hours := Some v; minutes := minutes p; seconds := seconds p;
     millis := millis p |}.
Definition setMinutes (v : Q) (p : TimePeriod) : TimePeriod :=
  {| days := days p; hours := hours p; minutes := Some v; seconds := seconds p;
     millis := millis p |}.
Definition setSeconds (v : Q) (p : TimePeriod) : TimePeriod :=
  {| days := days p; hours := hours p; minutes := minutes p; seconds := Some v;
     millis := millis p |}.
Definition setMillis (v : Q) (p : TimePeriod) : TimePeriod :=
  {| days := days p; hours := hours p; minutes := minutes p; seconds := seconds p;
     millis := Some v |}.

Definition unitsToTimePeriod (units : Q) (baseUnit : Z) : result TimePeriod :=
  ms ← unitsToMs units baseUnit;
  let period := emptyPeriod in
  let period := setDays (ms / timePeriodToMs (setDays 1 emptyPeriod)) period in
  let period :=
    setHours ((ms - timePeriodToMs period) / timePeriodToMs (setHours 1 emptyPeriod)) period in
  let period :=
    setMinutes ((ms - timePeriodToMs period) / timePeriodToMs (setMinutes 1 emptyPeriod)) period in
  let period :=
    setSeconds ((ms - timePeriodToMs period) / timePeriodToMs (setSeconds 1 emptyPeriod)) period in
  let period :=
    setMillis ((ms - timePeriodToMs period) / timePeriodToMs (setMillis 1 emptyPeriod)) period in
  Ok period.

(** ** Formatting a period *)

Section FormatPeriod.

(** The conversion of a number to a string that [+] applies to it when the
    other operand is a string: a service of the platform. *)
Variable numberToString : Q -> string.

(** [v == 1] *)
Definition isOne (v : Q) : bool := Qeq_bool v 1.

(** [v && v > k]: 0 is falsy. *)
Definition truthyAbove (k : Q) (v : Q) : bool :=
  negb (Qeq_bool v 0) && negb (Qle_bool v k).

(** [if (test(x)) components.push(x + suffix)]; an absent component is
    [undefined], for which both kinds of test are false. *)
Definition pushWhen (test : Q -> bool) (x : option Q) (suffix : string)
  (components : list string) : list string :=
  match x with
  | Some v =>
      if test v then components ++ [String.append (numberToString v) suffix]
      else components
  | None => components
  end.

Definition formatPeriod (period : TimePeriod) : string :=
  let components := [] in
  let components := pushWhen isOne (days period) " day" components in
  let components := pushWhen (truthyAbove 1) (days period) " days" components in
  let components := pushWhen isOne (hours period) " hour" components in
  let components := pushWhen (truthyAbove 1) (hours period) " hours" components in
  let components := pushWhen (truthyAbove 0) (minutes period) " min" components in
  let components := pushWhen (truthyAbove 0) (seconds period) " sec" components in
  let components := pushWhen (truthyAbove 0) (millis period) " ms" components in
  String.concat ", " components.

End FormatPeriod.

(** ** Dates *)

(** What the getters of a [Date] return: whole numbers, in local time;
    [getMonth] counts from 0 and [getTimezoneOffset] is in minutes, positive
    west of Greenwich. *)
Record DateFields : Type := {
  getTimezoneOffset : Z;
  getFullYear : Z;
  getMonth : Z;
  getDate : Z;
  getHours : Z;
  getMinutes : Z;
  getSeconds : Z
}.

(** [pad(num)]: [(num < 10 ? '0' : '') + num]; a whole number is printed in
    decimal. *)
Definition pad (num : Z) : string :=
  String.append (if (num <? 10)%Z then "0" else EmptyString) (pretty num).

(** [toIsoString(date)]: a chain of [+] from the year on. *)
Definition toIsoString (date : DateFields) : string :=
  let tzo := (- getTimezoneOffset date)%Z in
  let dif := if (0 <=? tzo)%Z then "+" else "-" in
  fold_left String.append
    ["-"; pad (getMonth date + 1);
     "-"; pad (getDate date);
     "T"; pad (getHours date);
     ":"; pad (getMinutes date);
     ":"; pad (getSeconds date);
     dif; pad (Z.abs tzo / 60);
     ":"; pad (Z.abs tzo mod 60)]%string
    (pretty (getFullYear date)).

(** ** Clock and Timer objects *)

(** [class Clock].  [timers] maps a name to the reference of a [Timer] object;
    [timePublisherId] is the handle returned by [setInterval], [None] while it
    is [undefined]. *)
Record Clock : Type := {
  clockTimeMs : Q;
  realTimestampMs : Q;
  _isPaused : bool;
  scale : Q;
  savedScale : Q;
  timers : gmap string nat;
  timePublisherId : option Z
}.

(** [class Timer].  The back-reference [clock] is the Clock of the store the
    timer lives in; [timestamp] is declared but not assigned by the
    constructor, hence [None] (undefined) until [start] or [getDelta] runs. *)
Record Timer : Type := {
  name : string;
  timestamp : option Q
}.

(** One Clock together with the Timer objects created for it. *)
Record Store : Type := {
  clock : Clock;
  heap : list Timer
}.

Module Timer.

(** [new Timer(clock, name)] *)
Definition new (name : string) : Timer := {| name := name; timestamp := None |}.

(** [getDelta()], [now] being the reading of [performance.now()].  The delta
    is [None] for NaN: [now - undefined] is NaN and so is its product with
    the scale. *)
Definition getDelta (now : Q) (c : Clock) (t : Timer) : option Q * Timer :=
  let delta :=
    match timestamp t with
    | Some ts => Some (scale c * (now - ts))
    | None => None
    end in
  (delta, {| name := name t; timestamp := Some now |}).

(** [start()], [now] being the reading of [performance.now()]. *)
Definition start (now : Q) (t : Timer) : Timer :=
  {| name := name t; timestamp := Some now |}.

End Timer.

Module Clock.

(** [isPaused()] *)
Definition isPaused (c : Clock) : bool := _isPaused c.

(** [setTime(timeMs)], [now] being the reading of [Date.now()]. *)
Definition setTime (now : Q) (timeMs : Q) (c : Clock) : Clock :=
  {| clockTimeMs := timeMs; realTimestampMs := now; _isPaused := _isPaused c;
     scale := scale c; savedScale := savedScale c; timers := timers c;
     timePublisherId := timePublisherId c |}.

(** [new Clock(clockTimeMs)]: the field initialisers, then [setTime]. *)
Definition new (now : Q) (clockTimeMs : Q) : Clock :=
  setTime now clockTimeMs
    {| clockTimeMs := 0; realTimestampMs := 0; _isPaused := false; scale := 1;
       savedScale := 1; timers := ∅; timePublisherId := None |}.

(** [getTime()], [now] being the reading of [Date.now()]. *)
Definition getTime (now : Q) (c : Clock) : Q :=
  let realTimeDelta := now - realTimestampMs c in
  let clockTime := clockTimeMs c + realTimeDelta * scale c in
  clockTime.

(** [getScale()] *)
Definition getScale (c : Clock) : Q :=
  if isPaused c then savedScale c else scale c.

Definition withSavedScale (s : Q) (c : Clock) : Clock :=
  {| clockTimeMs := clockTimeMs c; realTimestampMs := realTimestampMs c;
     _isPaused := _isPaused c; scale := scale c; savedScale := s;
     timers := timers c; timePublisherId := timePublisherId c |}.

Definition withScale (s : Q) (c : Clock) : Clock :=
  {| clockTimeMs := clockTimeMs c; realTimestampMs := realTimestampMs c;
     _isPaused := _isPaused c; scale := s; savedScale := savedScale c;
     timers := timers c; timePublisherId := timePublisherId c |}.

Definition withPaused (b : bool) (c : Clock) : Clock :=
  {| clockTimeMs := clockTimeMs c; realTimestampMs := realTimestampMs c;
     _isPaused := b; scale := scale c; savedScale := savedScale c;
     timers := timers c; timePublisherId := timePublisherId c |}.

Definition withTimers (m : gmap string nat) (c : Clock) : Clock :=
  {| clockTimeMs := clockTimeMs c; realTimestampMs := realTimestampMs c;
     _isPaused := _isPaused c; scale := scale c; savedScale := savedScale c;
     timers := m; timePublisherId := timePublisherId c |}.

Definition withPublisherId (h : option Z) (c : Clock) : Clock :=
  {| clockTimeMs := clockTimeMs c; realTimestampMs := realTimestampMs c;
     _isPaused := _isPaused c; scale := scale c; savedScale := savedScale c;
     timers := timers c; timePublisherId := h |}.

(** [setScale(scale)]: both [getTime()] and [setTime()] read [Date.now()]
    within the one synchronous call, at the instant [now]. *)
Definition setScale (now : Q) (newScale : Q) (c : Clock) : Clock :=
  if isPaused c then withSavedScale newScale c
  else withScale newScale (setTime now (getTime now c) c).

(** [setPaused(value)]: the updated clock and the returned [isPaused()]. *)
Definition setPaused (now : Q) (value : bool) (c : Clock) : bool * Clock :=
  let c' :=
    if value then
      if negb (isPaused c) then
        withPaused true (setScale now 0 (withSavedScale (scale c) c))
      else c
    else
      if isPaused c then
        let c1 := withPaused false c in
        setScale now (savedScale c1) c1
      else c in
  (isPaused c', c').

(** [createTimer(timerId)]: allocates the Timer object and returns its
    reference. *)
Definition createTimer (timerId : string) (s : Store) : nat * Store :=
  let timer := length (heap s) in
  (timer,
   {| clock := withTimers (<[timerId := timer]> (timers (clock s))) (clock s);
      heap := heap s ++ [Timer.new timerId] |}).

(** [startTimer(timerId)], [now] being the reading of [performance.now()]. *)
Definition startTimer (now : Q) (timerId : string) (s : Store) : nat * Store :=
  let '(timer, s1) :=
    match timers (clock s) !! timerId with
    | Some timer => (timer, s)
    | None => createTimer timerId s
    end in
  (timer, {| clock := clock s1; heap := alter (Timer.start now) timer (heap s1) |}).

(** [timer.getDelta()] through a reference held by a caller; [None] when the
    reference is not allocated. *)
Definition pollTimer (now : Q) (timer : nat) (s : Store) : option (option Q * Store) :=
  match heap s !! timer with
  | Some t =>
      let '(delta, t') := Timer.getDelta now (clock s) t in
      Some (delta, {| clock := clock s; heap := <[timer := t']> (heap s) |})
  | None => None
  end.

(** [getDelta(timerId)]: the outer [None] is the [undefined] of [?.] on an
    unknown name. *)
Definition getDelta (now : Q) (timerId : string) (s : Store) : option (option Q) * Store :=
  match timers (clock s) !! timerId with
  | Some timer =>
      match pollTimer now timer s with
      | Some (delta, s') => (Some delta, s')
      | None => (None, s)
      end
  | None => (None, s)
  end.

End Clock.

(** A store holding a freshly constructed Clock and no Timer. *)
Definition newStore (now : Q) (clockTimeMs : Q) : Store :=
  {| clock := Clock.new now clockTimeMs; heap := [] |}.

(** A finite sequence of [setScale] calls, each with the instant at which it
    is made. *)
Definition setScales (calls : list (Q * Q)) (c : Clock) : Clock :=
  fold_left (fun c call => Clock.setScale (fst call) (snd call) c) calls c.

(** A Clock that has been paused: [new Clock(0)] followed by
    [setPaused(true)], both at instant 0. *)
Definition pausedClock : Clock := snd (Clock.setPaused 0 true (Clock.new 0 0)).

(** The calls that change a Clock, each with the reading of [Date.now()] at
    the instant at which it is made. *)
Inductive ClockCall : Type :=
| CallSetTime (now timeMs : Q)
| CallSetScale (now newScale : Q)
| CallSetPaused (now : Q) (value : bool).

Definition clockCall (c : Clock) (k : ClockCall) : Clock :=
  match k with
  | CallSetTime now timeMs => Clock.setTime now timeMs c
  | CallSetScale now newScale => Clock.setScale now newScale c
  | CallSetPaused now value => snd (Clock.setPaused now value c)
  end.

Definition clockCalls (ks : list ClockCall) (c : Clock) : Clock :=
  fold_left clockCall ks c.

(** The calls made on a Clock and on its Timers.  [CallPoll] is
    [timer.getDelta()] on a Timer that an earlier call returned. *)
Inductive StoreCall : Type :=
| OnClock (k : ClockCall)
| CallCreateTimer (timerId : string)
| CallStartTimer (now : Q) (timerId : string)
| CallGetDelta (now : Q) (timerId : string)
| CallPoll (now : Q) (timer : nat).

Definition storeCall (s : Store) (k : StoreCall) : Store :=
  match k with
  | OnClock k => {| clock := clockCall (clock s) k; heap := heap s |}
  | CallCreateTimer timerId => snd (Clock.createTimer timerId s)
  | CallStartTimer now timerId => snd (Clock.startTimer now timerId s)
  | CallGetDelta now timerId => snd (Clock.getDelta now timerId s)
  | CallPoll now timer =>
      match Clock.pollTimer now timer s with
      | Some (_, s') => s'
      | None => s
      end
  end.

Definition storeCalls (ks : list StoreCall) (s : Store) : Store :=
  fold_left storeCall ks s.

(** ** The event loop behind [setTimeout], [setInterval] and [clearTimeout] *)

(** Time is counted in whole milliseconds.  A pending timer carries the
    closure to run; timeouts and intervals share one pool of handles, which
    are positive integers, so [clearTimeout] cancels either kind. *)
Section EventLoop.

Context {Cb App : Type}.

Record PendingTimer : Type := {
  handle : Z;
  due : Z;
  interval : option Z;
  callback : Cb
}.

Record World : Type := {
  now : Z;
  nextHandle : Z;
  pending : list PendingTimer;
  app : App
}.

(** How a closure runs, once the loop hands control to it. *)
Variable exec : Cb -> World -> World.

Definition withApp (a : App) (w : World) : World :=
  {| now := now w; nextHandle := nextHandle w; pending := pending w; app := a |}.

Definition withPending (l : list PendingTimer) (w : World) : World :=
  {| now := now w; nextHandle := nextHandle w; pending := l; app := app w |}.

Definition schedule (cb : Cb) (delay : Z) (repeat : option Z) (w : World) : Z * World :=
  let h := nextHandle w in
  (h,
   {| now := now w; nextHandle := (h + 1)%Z;
      pending := pending w ++
        [{| handle := h; due := (now w + Z.max 0 delay)%Z; interval := repeat;
            callback := cb |}];
      app := app w |}).

(** [setTimeout(cb, delay)]: a negative delay counts as 0. *)
Definition setTimeout (cb : Cb) (delay : Z) (w : World) : Z * World :=
  schedule cb delay None w.

(** [setInterval(cb, period)] *)
Definition setInterval (cb : Cb) (period : Z) (w : World) : Z * World :=
  schedule cb period (Some (Z.max 1 period)) w.

(** [clearTimeout(id)]; [None] is [undefined], which cancels nothing. *)
Definition clearTimeout (id : option Z) (w : World) : World :=
  match id with
  | Some h => withPending (filter (fun t => handle t ≠ h) (pending w)) w
  | None => w
  end.

Definition isActive (h : Z) (w : World) : bool :=
  existsb (fun t => (handle t =? h)%Z) (pending w).

(** After it ran, a timeout leaves the pool and an interval is re-armed. *)
Definition rearm (t : PendingTimer) (w : World) : World :=
  match interval t with
  | None => clearTimeout (Some (handle t)) w
  | Some p =>
      withPending
        ((fun u =>
            if (handle u =? handle t)%Z
            then {| handle := handle u; due := (now w + p)%Z;
                    interval := interval u; callback := callback u |}
            else u) <$> pending w) w
  end.

(** One timer task: skipped when the timer was cancelled in the meantime. *)
Definition fire (w : World) (t : PendingTimer) : World :=
  if isActive (handle t) w then exec (callback t) (rearm t w) else w.

(** One turn of the loop: the timers that are due run in the order in which
    they were scheduled. *)
Definition runDue (w : World) : World :=
  fold_left fire (filter (fun t => (due t ≤ now w)%Z) (pending w)) w.

Definition tick (w : World) : World :=
  runDue {| now := (now w + 1)%Z; nextHandle := nextHandle w; pending := pending w;
            app := app w |}.

(** The script yields to the loop for [n] milliseconds. *)
Fixpoint elapse (n : nat) (w : World) : World :=
  match n with
  | O => w
  | S n' => elapse n' (tick w)
  end.

Definition advance (n : nat) (w : World) : World := elapse n (runDue w).

End EventLoop.

Arguments PendingTimer : clear implicits.
Arguments World : clear implicits.

(** ** The time publisher *)

(** The closures found in the loop of a page that owns a Clock: the publisher
    of [enableTimePublisher], and closures of other components, which do not
    touch the Clock or its topic. *)
Inductive PubCallback : Type :=
| PublishTime
| Foreign (k : nat).

(** The Clock and the payloads handed so far to [PubSub.publish] under
    [SYSTEM_TIME_TOPIC], the one topic the Clock publishes to. *)
Record PubApp : Type := {
  pubClock : Clock;
  published : list Q
}.

Definition PubWorld : Type := World PubCallback PubApp.

(** [Date.now()] inside the loop. *)
Definition dateNow {Cb App : Type} (w : World Cb App) : Q := inject_Z (now w).

(** [() => PubSub.publish(SYSTEM_TIME_TOPIC, this.getTime())] *)
Definition pubExec (cb : PubCallback) (w : PubWorld) : PubWorld :=
  match cb with
  | PublishTime =>
      withApp {| pubClock := pubClock (app w);
                 published := published (app w) ++ [Clock.getTime (dateNow w) (pubClock (app w))] |} w
  | Foreign _ => w
  end.

(** Truthiness of [timePublisherId]: [undefined] and [0] are falsy. *)
Definition truthyId (id : option Z) : bool :=
  match id with
  | Some h => negb (h =? 0)%Z
  | None => false
  end.

Definition setPublisherId (id : option Z) (w : PubWorld) : PubWorld :=
  withApp {| pubClock := Clock.withPublisherId id (pubClock (app w));
             published := published (app w) |} w.

(** [Clock.enableTimePublisher(isEnabled)] *)
Definition enableTimePublisher (isEnabled : bool) (w : PubWorld) : PubWorld :=
  if isEnabled then
    if truthyId (timePublisherId (pubClock (app w))) then w
    else
      let '(h, w1) := setInterval PublishTime 1000 w in
      setPublisherId (Some h) w1
  else
    if negb (truthyId (timePublisherId (pubClock (app w)))) then w
    else
      let w1 := clearTimeout (timePublisherId (pubClock (app w))) w in
      setPublisherId None w1.

(** A page at time [t0] with a new Clock and an idle loop. *)
Definition newPubWorld (t0 : Z) (clockTimeMs : Q) : PubWorld :=
  {| now := t0; nextHandle := 1; pending := [];
     app := {| pubClock := Clock.new (inject_Z t0) clockTimeMs; published := [] |} |}.

(** What a page does with its Clock and its loop, one step at a time.  [Wait]
    yields to the loop; [Busy] is a computation during which time passes and
    the loop does not get control, so that timers become overdue. *)
Inductive PubOp : Type :=
| EnableTimePublisher (isEnabled : bool)
| Wait (ms : nat)
| Busy (ms : nat)
| SetTime (timeMs : Q)
| SetScale (newScale : Q)
| SetPaused (value : bool)
| OtherTimeout (k : nat) (delay : Z)
| OtherInterval (k : nat) (period : Z).

Definition onClock (f : Clock -> Clock) (w : PubWorld) : PubWorld :=
  withApp {| pubClock := f (pubClock (app w)); published := published (app w) |} w.

Definition runOp (w : PubWorld) (op : PubOp) : PubWorld :=
  match op with
  | EnableTimePublisher b => enableTimePublisher b w
  | Wait ms => advance pubExec ms w
  | Busy ms =>
      {| now := (now w + Z.of_nat ms)%Z; nextHandle := nextHandle w;
         pending := pending w; app := app w |}
  | SetTime timeMs => onClock (Clock.setTime (dateNow w) timeMs) w
  | SetScale newScale => onClock (Clock.setScale (dateNow w) newScale) w
  | SetPaused value => onClock (fun c => snd (Clock.setPaused (dateNow w) value c)) w
  | OtherTimeout k delay => snd (setTimeout (Foreign k) delay w)
  | OtherInterval k period => snd (setInterval (Foreign k) period w)
  end.

Definition runOps (ops : list PubOp) (w : PubWorld) : PubWorld := fold_left runOp ops w.

(** ** throttle *)

(** [throttle(threshold, scope, fn)] of [timing.ts]; [throttler.ts] holds the
    same function.  [A] is the type of the argument list; [scope] only selects
    the [this] of [fn] and is left out.  Times are whole milliseconds. *)
Section Throttle.

Context {A : Type}.

(** The closure scheduled by a call: it captured [now] and [args]. *)
Inductive ThrottleCallback : Type :=
| Deferred (now : Z) (args : A).

(** The two variables closed over by the wrapper, and the calls of [fn] made
    so far, each with the time at which it ran. *)
Record ThrottleApp : Type := {
  last : option Z;
  timeoutId : option Z;
  invocations : list (Z * A)
}.

Definition ThrottleWorld : Type := World ThrottleCallback ThrottleApp.

(** [() => { last = now; fn.apply(context, args); }] *)
Definition throttleExec (cb : ThrottleCallback) (w : ThrottleWorld) : ThrottleWorld :=
  match cb with
  | Deferred now0 args =>
      withApp {| last := Some now0; timeoutId := timeoutId (app w);
                 invocations := invocations (app w) ++ [(now w, args)] |} w
  end.

(** [last || dflt]: [undefined] and [0] are falsy. *)
Definition lastOr (last : option Z) (dflt : Z) : Z :=
  match last with
  | Some l => if (l =? 0)%Z then dflt else l
  | None => dflt
  end.

(** The function returned by [throttle], called with [args]. *)
Definition throttled (threshold : Z) (args : A) (w : ThrottleWorld) : ThrottleWorld :=
  let now0 := now w in
  let last0 := lastOr (last (app w)) (now0 - threshold)%Z in
  let w1 := clearTimeout (timeoutId (app w)) w in
  let '(id, w2) :=
    setTimeout (Deferred now0 args) (threshold - (now0 - last0))%Z w1 in
  withApp {| last := Some last0; timeoutId := Some id;
             invocations := invocations (app w2) |} w2.

(** The state right after [throttle(...)] returned, at time [t0]. *)
Definition newThrottleWorld (t0 : Z) : ThrottleWorld :=
  {| now := t0; nextHandle := 1; pending := [];
     app := {| last := None; timeoutId := None; invocations := [] |} |}.

(** A burst: each call is followed by [gap] milliseconds in which the loop
    runs. *)
Fixpoint burst (threshold : Z) (calls : list (A * nat)) (w : ThrottleWorld) : ThrottleWorld :=
  match calls with
  | [] => w
  | (args, gap) :: rest =>
      burst threshold rest (advance throttleExec gap (throttled threshold args w))
  end.

(** Calls made back to back within one task: the loop does not get control
    between them, and the clock reading is the same for all. *)
Definition sameTask (threshold : Z) (argss : list A) (w : ThrottleWorld) : ThrottleWorld :=
  fold_left (fun w args => throttled threshold args w) argss w.

End Throttle.

Arguments ThrottleCallback : clear implicits.
Arguments ThrottleApp : clear implicits.
Arguments ThrottleWorld : clear implicits.

(** ** The same code on IEEE-754 doubles *)

Module Binary64.

Local Open Scope float_scope.

(** Truthiness of a number: [0], [-0] and [NaN] are falsy. *)
Definition truthy (v : float) : bool := negb (is_zero v || is_nan v).

(** A whole number, as the double that holds it (below 2^53 it is held
    exactly). *)
Definition whole (n : Z) : float := of_uint63 (Uint63.of_Z n).

(** [convert(units, unit, op)] *)
Definition convert (units : float) (unit : Z) (op : float -> float -> float)
  : result float :=
  if (unit =? TimeUnit.Milliseconds)%Z then Ok units
  else if (unit =? TimeUnit.Seconds)%Z then Ok (op units 1000)
  else if (unit =? TimeUnit.Minutes)%Z then Ok (op units 60000)
  else if (unit =? TimeUnit.Hours)%Z then Ok (op units 3600000)
  else if (unit =? TimeUnit.Days)%Z then Ok (op units 86400000)
  else Throw Error.

Definition timeMsToUnits (timeMs : float) (unit : Z) : result float :=
  convert timeMs unit (fun ms div => ms / div).

Definition unitsToMs (units : float) (baseUnit : Z) : result float :=
  convert units baseUnit (fun units mult => units * mult).

(** Modelled from the spec: the interface [TimePeriod] of [domain/models],
    which is not among the sources; five optional numbers, as in the main
    embedding. *)
Record TimePeriod : Type := {
  days : option float;
  hours : option float;
  minutes : option float;
  seconds : option float;
  millis : option float
}.

Definition emptyPeriod : TimePeriod :=
  {| days := None; hours := None; minutes := None; seconds := None; millis := None |}.

(** [x ? a : 0] on an optional number. *)
Definition ifTruthy (x : option float) (f : float -> float) : float :=
  match x with
  | Some v => if truthy v then f v else 0
  | None => 0
  end.

Definition secondsToMillis (seconds : option float) : float :=
  ifTruthy seconds (fun s => s * 1000).
Definition minutesToMillis (minutes : option float) : float :=
  ifTruthy minutes (fun m => m * secondsToMillis (Some 60)).
Definition hoursToMillis (hours : option float) : float :=
  ifTruthy hours (fun h => h * minutesToMillis (Some 60)).
Definition daysToMillis (days : option float) : float :=
  ifTruthy days (fun d => d * hoursToMillis (Some 24)).
Definition millisToMills (millis : option float) : float := ifTruthy millis (fun m => m).

Definition timePeriodToMs (timePeriod : TimePeriod) : float :=
  daysToMillis (days timePeriod) + hoursToMillis (hours timePeriod)
  + minutesToMillis (minutes timePeriod) + secondsToMillis (seconds timePeriod)
  + millisToMills (millis timePeriod).

Definition timePeriodToUnits (timePeriod : TimePeriod) (unit : Z) : result float :=
  timeMsToUnits (timePeriodToMs timePeriod) unit.

Definition setDays (v : float) (p : TimePeriod) : TimePeriod :=
  {| days := Some v; hours := hours p; minutes := minutes p; seconds := seconds p;
     millis := millis p |}.
Definition setHours (v : float) (p : TimePeriod) : TimePeriod :=
  {| days := days p; hours := Some v; minutes := minutes p; seconds := seconds p;
     millis := millis p |}.
Definition setMinutes (v : float) (p : TimePeriod) : TimePeriod :=
  {| days := days p; hours := hours p; minutes := Some v; seconds := seconds p;
     millis := millis p |}.
Definition setSeconds (v : float) (p : TimePeriod) : TimePeriod :=
  {| days := days p; hours := hours p; minutes := minutes p; seconds := Some v;
     millis := millis p |}.
Definition setMillis (v : float) (p : TimePeriod) : TimePeriod :=
  {| days := days p; hours := hours p; minutes := minutes p; seconds := seconds p;
     millis := Some v |}.

Definition unitsToTimePeriod (units : float) (baseUnit : Z) : result TimePeriod :=
  ms ← unitsToMs units baseUnit;
  let period := emptyPeriod in
  let period := setDays (ms / timePeriodToMs (setDays 1 emptyPeriod)) period in
  let period :=
    setHours ((ms - timePeriodToMs period) / timePeriodToMs (setHours 1 emptyPeriod)) period in
  let period :=
    setMinutes ((ms - timePeriodToMs period) / timePeriodToMs (setMinutes 1 emptyPeriod)) period in
  let period :=
    setSeconds ((ms - timePeriodToMs period) / timePeriodToMs (setSeconds 1 emptyPeriod)) period in
  let period :=
    setMillis ((ms - timePeriodToMs period) / timePeriodToMs (setMillis 1 emptyPeriod)) period in
  Ok period.

Section FormatPeriod.

(** The conversion of a number to a string that [+] applies to it. *)
Variable numberToString : float -> string.

(** [v == 1] *)
Definition isOne (v : float) : bool := v =? 1.

(** [v && v > k] *)
Definition truthyAbove (k : float) (v : float) : bool := truthy v && (k <? v).

Definition pushWhen (test : float -> bool) (x : option float) (suffix : string)
  (components : list string) : list string :=
  match x with
  | Some v =>
      if test v then components ++ [String.append (numberToString v) suffix]
      else components
  | None => components
  end.

Definition formatPeriod (period : TimePeriod) : string :=
  let components := [] in
  let components := pushWhen isOne (days period) " day" components in
  let components := pushWhen (truthyAbove 1) (days period) " days" components in
  let components := pushWhen isOne (hours period) " hour" components in
  let components := pushWhen (truthyAbove 1) (hours period) " hours" components in
  let components := pushWhen (truthyAbove 0) (minutes period) " min" components in
  let components := pushWhen (truthyAbove 0) (seconds period) " sec" components in
  let components := pushWhen (truthyAbove 0) (millis period) " ms" components in
  String.concat ", " components.

End FormatPeriod.

(** The fields of [Clock] that hold numbers, and the pause flag. *)
Record Clock : Type := {
  clockTimeMs : float;
  realTimestampMs : float;
  _isPaused : bool;
  scale : float;
  savedScale : float
}.

Record Timer : Type := {
  name : string;
  timestamp : option float
}.

Module Timer.

(** [getDelta()]: an [undefined] timestamp turns into NaN under [-]. *)
Definition getDelta (now : float) (c : Clock) (t : Timer) : float * Timer :=
  let delta :=
    scale c * (now - match timestamp t with Some ts => ts | None => nan end) in
  (delta, {| name := name t; timestamp := Some now |}).

Definition start (now : float) (t : Timer) : Timer :=
  {| name := name t; timestamp := Some now |}.

End Timer.

Module Clock.

Definition isPaused (c : Clock) : bool := _isPaused c.

Definition setTime (now : float) (timeMs : float) (c : Clock) : Clock :=
  {| clockTimeMs := timeMs; realTimestampMs := now; _isPaused := _isPaused c;
     scale := scale c; savedScale := savedScale c |}.

Definition new (now : float) (clockTimeMs : float) : Clock :=
  setTime now clockTimeMs
    {| clockTimeMs := 0; realTimestampMs := 0; _isPaused := false; scale := 1;
       savedScale := 1 |}.

Definition getTime (now : float) (c : Clock) : float :=
  let realTimeDelta := now - realTimestampMs c in
  let clockTime := clockTimeMs c + realTimeDelta * scale c in
  clockTime.

Definition setScale (now : float) (newScale : float) (c : Clock) : Clock :=
  if isPaused c then
    {| clockTimeMs := clockTimeMs c; realTimestampMs := realTimestampMs c;
       _isPaused := _isPaused c; scale := scale c; savedScale := newScale |}
  else
    let c1 := setTime now (getTime now c) c in
    {| clockTimeMs := clockTimeMs c1; realTimestampMs := realTimestampMs c1;
       _isPaused := _isPaused c1; scale := newScale; savedScale := savedScale c1 |}.

End Clock.

End Binary64.

(** ** Vocabulary of the statements *)

(** The optional component [x] is present and holds the number [q]. *)
Definition isNum (x : option Q) (q : Q) : Prop :=
  match x with
  | Some v => v == q
  | None => False
  end.

(** The number an optional component contributes: an absent one counts 0. *)
Definition num (x : option Q) : Q :=
  match x with
  | Some v => v
  | None => 0
  end.




(** No pending timer carries the publisher closure. *)
Definition quiet (w : PubWorld) : Prop :=
  forall t, t ∈ pending w -> callback t <> PublishTime.

(** The invariant of a page: handles are positive, and a pending timer that
    carries the publisher closure is the one recorded in [timePublisherId]. *)
Definition pubInv (w : PubWorld) : Prop :=
  (0 < nextHandle w)%Z /\
  forall t, t ∈ pending w -> callback t = PublishTime ->
            timePublisherId (pubClock (app w)) = Some (handle t) /\ handle t <> 0%Z.

(** [w'] has the Clock and the handle counter of [w], and each of its pending
    timers stems from one of [w], with the same handle and closure. *)
Definition stems (w w' : PubWorld) : Prop :=
  nextHandle w' = nextHandle w /\
  pubClock (app w') = pubClock (app w) /\
  forall t', t' ∈ pending w' ->
             exists t, t ∈ pending w /\ handle t' = handle t /\ callback t' = callback t.

(** The two shapes a throttled page takes: no timeout pending, or the one
    timeout of the latest call pending. *)
Definition idleWorld {A : Type} (now nh : Z) (l id : option Z) (inv : list (Z * A))
  : ThrottleWorld A :=
  {| now := now; nextHandle := nh; pending := [];
     app := {| last := l; timeoutId := id; invocations := inv |} |}.

Definition armedWorld {A : Type} (now nh h due tc : Z) (a : A) (l : option Z)
  (inv : list (Z * A)) : ThrottleWorld A :=
  {| now := now; nextHandle := nh;
     pending := [{| handle := h; due := due; interval := None;
                    callback := Deferred tc a |}];
     app := {| last := l; timeoutId := Some h; invocations := inv |} |}.

(** After the first call ran, and until 200 ms have passed since it was made
    at [t1] with arguments [a1]: [fn] ran once, [last] is [t1], and either
    nothing is pending or the timeout of the latest call is, due at
    [t1 + 200]. *)
Definition settled {A : Type} (t1 : Z) (a1 : A) (t : Z) (w : ThrottleWorld A) : Prop :=
  (exists nh id, w = idleWorld t nh (Some t1) id [(t1, a1)]) \/
  (exists nh h tc a, w = armedWorld t nh h (t1 + 200) tc a (Some t1) [(t1, a1)]).

(** The real time covered by a list of calls: the sum of the gaps. *)
Definition span {A : Type} (calls : list (A * nat)) : nat :=
  fold_right (fun call acc => (snd call + acc)%nat) 0%nat calls.

(** An optional component that [formatPeriod] leaves out: absent or below 1
    for days and hours, absent or not positive for the three others. *)
Definition belowOne (x : option Q) : Prop :=
  match x with
  | Some v => v < 1
  | None => True
  end.

Definition notPositive (x : option Q) : Prop :=
  match x with
  | Some v => v <= 0
  | None => True
  end.

(** The scale a sequence of calls asks for: the argument of the last
    [setScale], or [dflt] when there is none. *)
Definition requestedScale (ks : list ClockCall) (dflt : Q) : Q :=
  fold_left (fun s k => match k with CallSetScale _ s' => s' | _ => s end) ks dflt.

(** Every registered name refers to a Timer that exists. *)
Definition wfStore (s : Store) : Prop :=
  forall n r, timers (clock s) !! n = Some r -> (r < length (heap s))%nat.

#[global] Instance PubCallback_eq_dec : EqDecision PubCallback.
Proof. solve_decision. Defined.

(** The number of pending timers that carry the publisher closure. *)
Definition publisherTimers (w : PubWorld) : nat :=
  length (filter (fun t => callback t = PublishTime) (pending w)).

(** A page whose only pending timer is the publisher's interval. *)
Definition tickingWorld (t nh h due : Z) (c : Clock) (l : list Q) : PubWorld :=
  {| now := t; nextHandle := nh;
     pending := [{| handle := h; due := due; interval := Some 1000%Z;
                    callback := PublishTime |}];
     app := {| pubClock := c; published := l |} |}.

(** A page with nothing pending. *)
Definition idlePage (t nh : Z) (c : Clock) (l : list Q) : PubWorld :=
  {| now := t; nextHandle := nh; pending := [];
     app := {| pubClock := c; published := l |} |}.

(** The payloads of the first [m] ticks of a publisher enabled at [t] on a
    Clock that is left alone. *)
Definition tickPayloads (t : Z) (c : Clock) (m : nat) : list Q :=
  map (fun k => Clock.getTime (inject_Z (t + 1000 * (Z.of_nat k + 1))) c) (seq 0 m).

(** A date with a year of four digits and every field in its range; the
    offset to UTC is less than 100 hours. *)
Definition fourDigitYearDate (date : DateFields) : Prop :=
  (1000 <= getFullYear date <= 9999 /\ 0 <= getMonth date <= 11 /\
   1 <= getDate date <= 31 /\ 0 <= getHours date <= 23 /\
   0 <= getMinutes date <= 59 /\ 0 <= getSeconds date <= 59 /\
   -5999 <= getTimezoneOffset date <= 5999)%Z.

(** A Timer polled at each instant of a list in turn, as an animation loop
    does once per frame: the deltas reported. *)
Fixpoint pollEach (c : Clock) (instants : list Q) (tm : Timer) : list (option Q) :=
  match instants with
  | [] => []
  | p :: rest =>
      let '(delta, tm') := Timer.getDelta p c tm in
      delta :: pollEach c rest tm'
  end.

(** What each poll of a list measures: the time since the poll before it
    ([prev] for the first), times the scale [s]. *)
Fixpoint scaledSteps (s : Q) (prev : Q) (instants : list Q) : list Q :=
  match instants with
  | [] => []
  | p :: rest => s * (p - prev) :: scaledSteps s p rest
  end.

(** A test holds for each of the [n] whole numbers from [k] on. *)
Fixpoint allFrom (n : nat) (f : Z -> bool) (k : Z) : bool :=
  match n with
  | O => true
  | S n => f k && allFrom n f (k + 1)
  end.

(** A call returned the double [x] (compared with [===]). *)
Definition returned (r : result float) (x : float) : bool :=
  match r with
  | Ok v => PrimFloat.eqb v x
  | Throw _ => false
  end.

(** * Properties *)

(** ** Unit conversions *)

Lemma recognized_cases (unit : Z) :
  recognized unit <-> (0 <= unit <= 4)%Z.
Proof.
  unfold recognized, TimeUnit.Milliseconds, TimeUnit.Seconds, TimeUnit.Minutes,
    TimeUnit.Hours, TimeUnit.Days.
  lia.
Qed.

Lemma convert_throws (units : Q) (unit : Z) (op : Q -> Q -> Q) :
  convert units unit op = Throw Error <-> ~ recognized unit.
Proof.
  rewrite recognized_cases. unfold convert.
  unfold TimeUnit.Milliseconds, TimeUnit.Seconds, TimeUnit.Minutes,
    TimeUnit.Hours, TimeUnit.Days.
  repeat
    match goal with
    | |- context [(unit =? ?k)%Z] =>
        destruct (Z.eqb_spec unit k) as [-> | ?]; [split; [discriminate | lia] |]
    end.
  split; [lia | reflexivity].
Qed.

Lemma convert_returns (units : Q) (unit : Z) (op : Q -> Q -> Q) :
  recognized unit -> exists y, convert units unit op = Ok y.
Proof.
  intros H. destruct (convert units unit op) as [y | e] eqn:E.
  - exists y. reflexivity.
  - destruct e. apply convert_throws in E. contradiction.
Qed.

(** C8. For every number, [timeMsToUnits] and [unitsToMs] throw (the bare
    [Error] of [convert], which the specification calls UnsupportedUnit)
    exactly when the unit is none of Milliseconds, Seconds, Minutes, Hours,
    Days, and they return a number for each of these five.  The conversions
    are functions of the number and the unit alone: no Clock goes in or comes
    out, so a failing call leaves every Clock as it was. *)
Theorem conversion_fails_iff_unrecognized (x : Q) (unit : Z) :
  (timeMsToUnits x unit = Throw Error <-> ~ recognized unit) /\
  (unitsToMs x unit = Throw Error <-> ~ recognized unit) /\
  (recognized unit ->
   exists y z, timeMsToUnits x unit = Ok y /\ unitsToMs x unit = Ok z).
Proof.
  unfold timeMsToUnits, unitsToMs. repeat split.
  - apply convert_throws.
  - apply convert_throws.
  - apply convert_throws.
  - apply convert_throws.
  - intros H.
    destruct (convert_returns x unit (fun ms div => ms / div) H) as [y Hy].
    destruct (convert_returns x unit (fun u mult => u * mult) H) as [z Hz].
    exists y, z. split; assumption.
Qed.

(** ** Periods *)

Lemma ifTruthy_Some (v : Q) (f : Q -> Q) :
  (v == 0 -> f v == 0) -> ifTruthy (Some v) f == f v.
Proof.
  intros H. unfold ifTruthy. destruct (Qeq_bool v 0) eqn:E.
  - apply Qeq_bool_iff in E. symmetry. apply H, E.
  - reflexivity.
Qed.

Lemma ifTruthy_num (x : option Q) (k : Q) :
  ifTruthy x (fun v => v * k) == num x * k.
Proof.
  destruct x as [v |]; simpl num.
  - apply (ifTruthy_Some v (fun u => u * k)). intros ->. ring.
  - simpl. ring.
Qed.

(** [timePeriodToMs] is the weighted sum of the components. *)
Lemma timePeriodToMs_sum (p : TimePeriod) :
  timePeriodToMs p ==
  num (days p) * 86400000 + num (hours p) * 3600000 + num (minutes p) * 60000
  + num (seconds p) * 1000 + num (millis p).
Proof.
  unfold timePeriodToMs, daysToMillis, hoursToMillis, minutesToMillis,
    secondsToMillis, millisToMills.
  rewrite !ifTruthy_num.
  assert (Hm : ifTruthy (millis p) (fun m => m) == num (millis p)).
  { destruct (millis p) as [v |]; simpl num; [| reflexivity].
    apply (ifTruthy_Some v (fun m => m)). intros ->. reflexivity. }
  rewrite Hm. simpl num. ring.
Qed.

Lemma unit_periods :
  timePeriodToMs (setDays 1 emptyPeriod) == 86400000 /\
  timePeriodToMs (setHours 1 emptyPeriod) == 3600000 /\
  timePeriodToMs (setMinutes 1 emptyPeriod) == 60000 /\
  timePeriodToMs (setSeconds 1 emptyPeriod) == 1000 /\
  timePeriodToMs (setMillis 1 emptyPeriod) == 1.
Proof. repeat split; vm_compute; reflexivity. Qed.

(** The five assignments of [unitsToTimePeriod], one after the other, in exact
    arithmetic: the days take the whole duration and nothing is left. *)
Lemma decomposition_steps (ms ud uh um us ul : Q) :
  ud == 86400000 -> uh == 3600000 -> um == 60000 -> us == 1000 -> ul == 1 ->
  let d := ms / ud in
  let p1 := setDays d emptyPeriod in
  let h := (ms - timePeriodToMs p1) / uh in
  let p2 := setHours h p1 in
  let m := (ms - timePeriodToMs p2) / um in
  let p3 := setMinutes m p2 in
  let s := (ms - timePeriodToMs p3) / us in
  let p4 := setSeconds s p3 in
  let l := (ms - timePeriodToMs p4) / ul in
  d == ms / 86400000 /\ h == 0 /\ m == 0 /\ s == 0 /\ l == 0.
Proof.
  intros Hd Hh Hm Hs Hl d p1 h p2 m p3 s p4 l.
  assert (Ed : d == ms / 86400000) by (unfold d; rewrite Hd; reflexivity).
  assert (T1 : timePeriodToMs p1 == ms).
  { rewrite timePeriodToMs_sum. cbn. rewrite Ed. field. }
  assert (Eh : h == 0) by (unfold h; rewrite T1, Hh; field).
  assert (T2 : timePeriodToMs p2 == ms).
  { rewrite timePeriodToMs_sum. cbn. rewrite Ed, Eh. field. }
  assert (Em : m == 0) by (unfold m; rewrite T2, Hm; field).
  assert (T3 : timePeriodToMs p3 == ms).
  { rewrite timePeriodToMs_sum. cbn. rewrite Ed, Eh, Em. field. }
  assert (Es : s == 0) by (unfold s; rewrite T3, Hs; field).
  assert (T4 : timePeriodToMs p4 == ms).
  { rewrite timePeriodToMs_sum. cbn. rewrite Ed, Eh, Em, Es. field. }
  assert (El : l == 0) by (unfold l; rewrite T4, Hl; field).
  repeat split; assumption.
Qed.







(** ** Periods on doubles *)

#[local] Set Warnings "-inexact-float".

Lemma allFrom_spec (n : nat) (f : Z -> bool) (k : Z) :
  allFrom n f k = true -> forall z, (k <= z < k + Z.of_nat n)%Z -> f z = true.
Proof.
  revert k. induction n as [| n IH]; intros k H z Hz; [lia |].
  cbn [allFrom] in H. apply andb_true_iff in H as [Hk Hrest].
  destruct (Z.eq_dec z k) as [-> | Hne]; [exact Hk |].
  apply (IH (k + 1)%Z Hrest). lia.
Qed.

(** A finite double minus itself is [+0]. *)
Lemma float_sub_diag (x : float) : is_finite x = true -> (x - x)%float = 0%float.
Proof.
  intros H. apply Prim2SF_inj. rewrite sub_spec.
  unfold is_finite, is_nan, is_infinity in H.
  rewrite !FloatAxioms.eqb_spec, abs_spec in H.
  destruct (Prim2SF x) as [s | s | | s m e]; try discriminate H.
  - destruct s; reflexivity.
  - destruct s; discriminate H.
  - unfold SF64sub, SFsub. rewrite Z.min_id. unfold shl_align.
    rewrite !Z.sub_diag. reflexivity.
Qed.

Lemma unit_periods_binary64 :
  Binary64.timePeriodToMs (Binary64.setDays 1 Binary64.emptyPeriod) = 86400000%float /\
  Binary64.timePeriodToMs (Binary64.setHours 1 Binary64.emptyPeriod) = 3600000%float /\
  Binary64.timePeriodToMs (Binary64.setMinutes 1 Binary64.emptyPeriod) = 60000%float /\
  Binary64.timePeriodToMs (Binary64.setSeconds 1 Binary64.emptyPeriod) = 1000%float /\
  Binary64.timePeriodToMs (Binary64.setMillis 1 Binary64.emptyPeriod) = 1%float.
Proof. repeat split; reflexivity. Qed.

(** A component that holds 0 counts like one that is left out. *)
Lemma zero_component_binary64 (d : option float) :
  let p1 := {| Binary64.days := d; Binary64.hours := None; Binary64.minutes := None;
               Binary64.seconds := None; Binary64.millis := None |} in
  Binary64.timePeriodToMs (Binary64.setHours 0 p1) = Binary64.timePeriodToMs p1 /\
  Binary64.timePeriodToMs (Binary64.setMinutes 0 (Binary64.setHours 0 p1))
  = Binary64.timePeriodToMs p1 /\
  Binary64.timePeriodToMs
    (Binary64.setSeconds 0 (Binary64.setMinutes 0 (Binary64.setHours 0 p1)))
  = Binary64.timePeriodToMs p1 /\
  Binary64.timePeriodToMs
    (Binary64.setMillis 0
       (Binary64.setSeconds 0 (Binary64.setMinutes 0 (Binary64.setHours 0 p1))))
  = Binary64.timePeriodToMs p1.
Proof. repeat split; reflexivity. Qed.

(** When the product [days * 86400000] gives [ms] back, nothing is left for
    the four other components. *)
Lemma unitsToTimePeriod_exact (ms : float) :
  is_finite ms = true ->
  Binary64.timePeriodToMs (Binary64.setDays (ms / 86400000) Binary64.emptyPeriod) = ms ->
  Binary64.unitsToTimePeriod ms TimeUnit.Milliseconds =
  Ok {| Binary64.days := Some (ms / 86400000)%float; Binary64.hours := Some 0%float;
        Binary64.minutes := Some 0%float; Binary64.seconds := Some 0%float;
        Binary64.millis := Some 0%float |}.
Proof.
  intros Hf He.
  destruct unit_periods_binary64 as (Ud & Uh & Um & Us & Ul).
  destruct (zero_component_binary64 (Some (ms / 86400000)%float)) as (Z1 & Z2 & Z3 & Z4).
  cbv zeta in Z1, Z2, Z3, Z4.
  change {| Binary64.days := Some (ms / 86400000)%float; Binary64.hours := None;
            Binary64.minutes := None; Binary64.seconds := None; Binary64.millis := None |}
    with (Binary64.setDays (ms / 86400000) Binary64.emptyPeriod) in Z1, Z2, Z3, Z4.
  unfold Binary64.unitsToTimePeriod.
  change (Binary64.unitsToMs ms TimeUnit.Milliseconds) with (Ok ms).
  cbn [mbind result_bind].
  rewrite Ud, Uh, Um, Us, Ul.
  rewrite He, (float_sub_diag ms Hf).
  change (0 / 3600000)%float with 0%float.
  rewrite Z1, He, (float_sub_diag ms Hf).
  change (0 / 60000)%float with 0%float.
  rewrite Z2, He, (float_sub_diag ms Hf).
  change (0 / 1000)%float with 0%float.
  rewrite Z3, He, (float_sub_diag ms Hf).
  reflexivity.
Qed.





(** The whole numbers of milliseconds up to 100000 come back from
    [unitsToTimePeriod] and [timePeriodToMs] as they went in, on doubles as
    in exact arithmetic, and the period is the same when converted again. *)
Lemma whole_ms_round_trip_binary64 (k : Z) :
  (0 <= k <= 100000)%Z ->
  exists p,
    Binary64.unitsToTimePeriod (Binary64.whole k) TimeUnit.Milliseconds = Ok p /\
    Binary64.timePeriodToMs p = Binary64.whole k /\
    Binary64.unitsToTimePeriod (Binary64.timePeriodToMs p) TimeUnit.Milliseconds = Ok p.
Proof.
  intros Hk.
  assert (Hall :
    allFrom (Z.to_nat 100001)
      (fun k =>
         match Binary64.unitsToTimePeriod (Binary64.whole k) TimeUnit.Milliseconds with
         | Ok p => Leibniz.eqb (Binary64.timePeriodToMs p) (Binary64.whole k)
         | Throw _ => false
         end) 0 = true) by (vm_compute; reflexivity).
  pose proof (allFrom_spec _ _ _ Hall k ltac:(lia)) as H. cbv beta in H.
  destruct (Binary64.unitsToTimePeriod (Binary64.whole k) TimeUnit.Milliseconds)
    as [p | e] eqn:E; [| discriminate H].
  apply Leibniz.eqb_spec in H.
  exists p. split; [reflexivity |]. split; [exact H |]. rewrite H. exact E.
Qed.

(** ** Clock: scale changes and pauses *)

Ltac clock_unfold :=
  unfold Clock.isPaused in *;
  unfold Clock.setPaused, Clock.setScale, Clock.getTime, Clock.setTime,
    Clock.isPaused, Clock.withPaused, Clock.withScale, Clock.withSavedScale.

(** A [setScale] call reads the same simulated time just before and just
    after it is made. *)
Lemma setScale_no_jump (c : Clock) (t s : Q) :
  Clock.getTime t (Clock.setScale t s c) == Clock.getTime t c.
Proof. clock_unfold. destruct (_isPaused c); cbn; ring. Qed.

(** From the call on, simulated time moves at the scale the call left in the
    [scale] field. *)
Lemma setScale_rate (c : Clock) (t s t' : Q) :
  Clock.getTime t' (Clock.setScale t s c) ==
  Clock.getTime t c + (t' - t) * scale (Clock.setScale t s c).
Proof. clock_unfold. destruct (_isPaused c); cbn; ring. Qed.

Lemma setScale_running (c : Clock) (t s : Q) :
  Clock.isPaused c = false ->
  scale (Clock.setScale t s c) = s /\ Clock.isPaused (Clock.setScale t s c) = false.
Proof. clock_unfold. intros ->. cbn. split; reflexivity. Qed.

(** The worked example of C1 read for every Clock fails: on a paused Clock
    [setScale(2)] is only stored in [savedScale], and simulated time stays at
    the 0 set by [setTime(0)] instead of reaching [2 * D]. *)
Lemma setScale_example_fails_when_paused :
  Clock.isPaused pausedClock = true /\
  Clock.getTime (0 + 10) (Clock.setScale 0 2 (Clock.setTime 0 0 pausedClock)) == 0 /\
  ~ (forall (c : Clock) (t0 D : Q),
       Clock.getTime (t0 + D) (Clock.setScale t0 2 (Clock.setTime t0 0 c)) == 2 * D).
Proof.
  split; [reflexivity |]. split; [vm_compute; reflexivity |].
  intros H. specialize (H pausedClock 0 10). vm_compute in H. discriminate H.
Qed.

(** C1, amended.  After any finite sequence of [setScale] calls on any Clock,
    one more [setScale] at instant [t] reads the same simulated time at [t]
    before and after the call, and from then on simulated time moves at the
    rate held by the [scale] field, which is the new scale when the Clock is
    not paused.  On a Clock that is not paused, [setTime(0); setScale(2)] at
    [t0] reads [2 * D] after [D] of real time, and a further [setScale(-1)]
    reads [2 * D - D2] after [D2] more. *)
Theorem setScale_continuity (c : Clock) (calls : list (Q * Q)) (t s : Q) :
  let c' := setScales calls c in
  Clock.getTime t (Clock.setScale t s c') == Clock.getTime t c' /\
  (forall t', Clock.getTime t' (Clock.setScale t s c') ==
              Clock.getTime t c' + (t' - t) * scale (Clock.setScale t s c')) /\
  (Clock.isPaused c' = false -> scale (Clock.setScale t s c') = s) /\
  (Clock.isPaused c = false ->
   forall t0 D D2 : Q,
     let c2 := Clock.setScale t0 2 (Clock.setTime t0 0 c) in
     Clock.getTime (t0 + D) c2 == 2 * D /\
     Clock.getTime (t0 + D + D2) (Clock.setScale (t0 + D) (-1) c2) == 2 * D - D2).
Proof.
  intros c'. split; [apply setScale_no_jump |]. split; [apply setScale_rate |].
  split; [intros H; apply (setScale_running c' t s H) |].
  intros Hrun t0 D D2 c2.
  assert (H2 : Clock.getTime (t0 + D) c2 == 2 * D).
  { unfold c2. clock_unfold. rewrite Hrun. cbn. ring. }
  split; [exact H2 |].
  rewrite setScale_rate, H2.
  assert (Hs : scale (Clock.setScale (t0 + D) (-1) c2) = -1).
  { apply setScale_running. unfold c2. clock_unfold. rewrite Hrun. reflexivity. }
  rewrite Hs. ring.
Qed.

(** The worked example on a new Clock, which is not paused. *)
Lemma setScale_continuity_witness :
  Clock.getTime (0 + 10) (Clock.setScale 0 2 (Clock.setTime 0 0 (Clock.new 0 0)))
  == 2 * 10.
Proof.
  exact (proj1 (proj2 (proj2 (proj2
           (setScale_continuity (Clock.new 0 0) [(1, 3)] 2 5)))
         eq_refl 0 10 4)).
Defined.

Lemma setPaused_true_paused (c : Clock) (t : Q) :
  Clock.isPaused (snd (Clock.setPaused t true c)) = true.
Proof. clock_unfold. destruct (_isPaused c) eqn:E; cbn; [exact E | reflexivity]. Qed.

Lemma setPaused_true_noop (c : Clock) (t : Q) :
  Clock.isPaused c = true -> Clock.setPaused t true c = (true, c).
Proof. unfold Clock.setPaused. intros H. rewrite H. cbn. rewrite H. reflexivity. Qed.

(** The state left by a pause of a running Clock, and by the resumption of a
    paused one. *)
Lemma setPaused_true_running (c : Clock) (t : Q) :
  Clock.isPaused c = false ->
  Clock.setPaused t true c =
  (true,
   {| clockTimeMs := Clock.getTime t c; realTimestampMs := t; _isPaused := true;
      scale := 0; savedScale := scale c; timers := timers c;
      timePublisherId := timePublisherId c |}).
Proof. clock_unfold. intros H. rewrite H. cbn. rewrite ?H. reflexivity. Qed.

Lemma setPaused_false_paused (c : Clock) (t : Q) :
  Clock.isPaused c = true ->
  Clock.setPaused t false c =
  (false,
   {| clockTimeMs := Clock.getTime t c; realTimestampMs := t; _isPaused := false;
      scale := savedScale c; savedScale := savedScale c; timers := timers c;
      timePublisherId := timePublisherId c |}).
Proof. clock_unfold. intros H. rewrite H. cbn. rewrite ?H. reflexivity. Qed.

(** C2. On a Clock that is not paused and runs at scale [S], [setPaused(true)]
    at [t1] freezes [getTime()] at the value it had at [t1], whatever the later
    instant of the read; [setPaused(false)] at [t2] leaves the Clock not
    paused with scale [S] again, reading the frozen value at [t2] and moving on
    from it at rate [S].  On any Clock, a second [setPaused(true)] right after
    the first returns [true] and leaves the state of the first. *)
Theorem pause_freeze_restore_idempotent (c : Clock) (t1 : Q) :
  let frozen := snd (Clock.setPaused t1 true c) in
  (Clock.isPaused c = false ->
   fst (Clock.setPaused t1 true c) = true /\
   (forall t, Clock.getTime t frozen == Clock.getTime t1 c) /\
   (forall t2 t3,
      let resumed := snd (Clock.setPaused t2 false frozen) in
      Clock.isPaused resumed = false /\
      scale resumed = scale c /\
      Clock.getTime t2 resumed == Clock.getTime t1 c /\
      Clock.getTime t3 resumed == Clock.getTime t1 c + (t3 - t2) * scale c)) /\
  (forall t1', Clock.setPaused t1' true frozen = (true, frozen)).
Proof.
  intros frozen. split.
  - intros Hrun. unfold frozen. rewrite (setPaused_true_running c t1 Hrun).
    cbn [fst snd]. split; [reflexivity |].
    split; [intros t; unfold Clock.getTime; cbn; ring |].
    intros t2 t3. rewrite setPaused_false_paused by reflexivity.
    cbn [fst snd]. unfold Clock.getTime, Clock.isPaused. cbn.
    repeat split; ring.
  - intros t1'. apply setPaused_true_noop, setPaused_true_paused.
Qed.

(** A new Clock paused at instant 7 still reads the time of instant 7 at
    instant 20. *)
Lemma pause_freeze_restore_idempotent_witness :
  Clock.getTime 20 (snd (Clock.setPaused 7 true (Clock.new 0 100))) ==
  Clock.getTime 7 (Clock.new 0 100).
Proof.
  exact (proj1 (proj2 (proj1 (pause_freeze_restore_idempotent (Clock.new 0 100) 7)
                         eq_refl)) 20).
Defined.

(** C3. On a paused Clock, [setScale(newS)] leaves [getTime()] as it was at
    every instant and keeps the Clock paused; the [setPaused(false)] that
    follows, at [t2], leaves the Clock running at [newS], from the value read
    at [t2]. *)
Theorem setScale_while_paused (c : Clock) (t newS : Q) :
  Clock.isPaused c = true ->
  let c1 := Clock.setScale t newS c in
  (forall t', Clock.getTime t' c1 == Clock.getTime t' c) /\
  Clock.isPaused c1 = true /\
  Clock.getScale c1 = newS /\
  (forall t2 t3,
     let resumed := snd (Clock.setPaused t2 false c1) in
     Clock.isPaused resumed = false /\
     scale resumed = newS /\
     Clock.getTime t2 resumed == Clock.getTime t2 c /\
     Clock.getTime t3 resumed == Clock.getTime t2 c + (t3 - t2) * newS).
Proof.
  intros Hp c1.
  assert (E : c1 = Clock.withSavedScale newS c).
  { unfold c1, Clock.setScale. rewrite Hp. reflexivity. }
  rewrite E. clear E c1.
  split; [intros t'; reflexivity |]. split; [exact Hp |].
  split; [unfold Clock.getScale, Clock.isPaused in *; cbn; rewrite Hp; reflexivity |].
  intros t2 t3. rewrite setPaused_false_paused by exact Hp.
  cbn [fst snd]. unfold Clock.getTime, Clock.isPaused. cbn.
  repeat split; ring.
Qed.

(** A paused Clock given scale 3 runs at scale 3 once resumed. *)
Lemma setScale_while_paused_witness :
  scale (snd (Clock.setPaused 9 false (Clock.setScale 5 3 pausedClock))) = 3.
Proof.
  exact (proj1 (proj2 (proj2 (proj2 (proj2
           (setScale_while_paused pausedClock 5 3 eq_refl))) 9 9))).
Defined.

(** ** Timers *)

(** C4 as stated fails on doubles, even when the two platform clocks give the
    same readings: on [new Clock(0)] set to scale 0.1, both at reading 0, a
    Timer started at 1000 and polled at 1016 reports 1.6000000000000001,
    while [getTime()] reads 101.60000000000001 at 1016 and 100 at 1000, which
    differ by 1.6000000000000085. *)
Lemma timer_delta_differs_from_clock_delta :
  let c := Binary64.Clock.setScale 0 0.1 (Binary64.Clock.new 0 0) in
  let started :=
    Binary64.Timer.start 1000
      {| Binary64.name := "AnimationTimer"; Binary64.timestamp := None |} in
  let delta := fst (Binary64.Timer.getDelta 1016 c started) in
  Binary64.scale c = 0.1%float /\
  delta = 1.6000000000000001%float /\
  Binary64.Clock.getTime 1016 c = 101.60000000000001%float /\
  Binary64.Clock.getTime 1000 c = 100%float /\
  (Binary64.Clock.getTime 1016 c - Binary64.Clock.getTime 1000 c)%float
  = 1.6000000000000085%float /\
  PrimFloat.eqb delta (Binary64.Clock.getTime 1016 c - Binary64.Clock.getTime 1000 c)
  = false.
Proof. vm_compute. repeat split; reflexivity. Qed.

(** C4, amended.  A Timer started when [performance.now()] read [f0] and
    polled once when it read [f1], on a Clock whose state, and so whose
    [scale], did not change in between, reports the double
    [scale * (f1 - f0)].  The difference of the [getTime()] readings at the
    two instants is another computation, from the readings [d0] and [d1] of
    [Date.now()]: carried out without rounding it is [scale * (d1 - d0)], so
    that, without rounding, the two agree whenever the two platform clocks
    advanced by the same amount.  The poll moves the sample point to the
    instant of the poll. *)
Theorem timer_delta_is_clock_delta
  (c64 : Binary64.Clock) (tm64 : Binary64.Timer) (f0 f1 : float)
  (c : Clock) (tm : Timer) (p0 p1 d0 d1 : Q) :
  let polled64 := Binary64.Timer.getDelta f1 c64 (Binary64.Timer.start f0 tm64) in
  let polled := Timer.getDelta p1 c (Timer.start p0 tm) in
  fst polled64 = (Binary64.scale c64 * (f1 - f0))%float /\
  Binary64.timestamp (snd polled64) = Some f1 /\
  exists delta,
    fst polled = Some delta /\
    delta == scale c * (p1 - p0) /\
    timestamp (snd polled) = Some p1 /\
    Clock.getTime d1 c - Clock.getTime d0 c == scale c * (d1 - d0) /\
    (d1 - d0 == p1 - p0 -> delta == Clock.getTime d1 c - Clock.getTime d0 c).
Proof.
  intros polled64 polled. split; [reflexivity |]. split; [reflexivity |].
  exists (scale c * (p1 - p0)). cbn.
  split; [reflexivity |]. split; [reflexivity |]. split; [reflexivity |].
  assert (Hadv : Clock.getTime d1 c - Clock.getTime d0 c == scale c * (d1 - d0))
    by (unfold Clock.getTime; ring).
  split; [exact Hadv |].
  intros Hsame. rewrite Hadv, Hsame. reflexivity.
Qed.

(** The readings of the example above, without rounding: 16 ms at scale 1/10
    are 8/5 ms on both sides. *)
Lemma timer_delta_is_clock_delta_witness :
  let c := Clock.setScale 1700000000000 (1 # 10) (Clock.new 1700000000000 0) in
  exists delta,
    fst (Timer.getDelta 1016 c (Timer.start 1000 (Timer.new "AnimationTimer")))
    = Some delta /\
    delta == Clock.getTime 1700000000016 c - Clock.getTime 1700000000000 c.
Proof.
  intros c.
  destruct (timer_delta_is_clock_delta
              (Binary64.Clock.new 0 0)
              {| Binary64.name := "AnimationTimer"; Binary64.timestamp := None |}
              1000 1016 c (Timer.new "AnimationTimer")
              1000 1016 1700000000000 1700000000016)
    as (_ & _ & delta & Hd & _ & _ & _ & Hsame).
  exists delta. split; [exact Hd |]. apply Hsame. reflexivity.
Defined.

(** The Timer returned by [createTimer] has no timestamp, and its first
    [getDelta()] is NaN, not 0: the claim of C5 fails on a new Clock. *)
Lemma createTimer_does_not_start :
  let created := Clock.createTimer "AnimationTimer" (newStore 1000 0) in
  (timestamp <$> heap (snd created) !! fst created) = Some None /\
  (fst <$> Clock.pollTimer 1000 (fst created) (snd created)) = Some None.
Proof. vm_compute. split; reflexivity. Qed.

Lemma lookup_alloc (h : list Timer) (t : Timer) : (h ++ [t]) !! length h = Some t.
Proof. rewrite lookup_app_r by lia. rewrite Nat.sub_diag. reflexivity. Qed.

(** C5, amended.  [createTimer(name)] allocates a new Timer bound to the
    Clock, registers it under [name] in place of any earlier entry, leaves the
    other entries and the Timers that exist alone, and returns it, not
    started: its timestamp is unset.  [startTimer(name)] then finds that same
    Timer and starts it, its timestamp being the instant of the call, and a
    [getDelta()] at that instant returns 0. *)
Theorem createTimer_registers_unstarted (s : Store) (timerId : string) (now : Q) :
  let timer := fst (Clock.createTimer timerId s) in
  let s1 := snd (Clock.createTimer timerId s) in
  timers (clock s1) !! timerId = Some timer /\
  heap s1 !! timer = Some {| name := timerId; timestamp := None |} /\
  (forall other, other <> timerId ->
                 timers (clock s1) !! other = timers (clock s) !! other) /\
  (forall r, (r < length (heap s))%nat -> heap s1 !! r = heap s !! r) /\
  let s2 := snd (Clock.startTimer now timerId s1) in
  fst (Clock.startTimer now timerId s1) = timer /\
  heap s2 !! timer = Some {| name := timerId; timestamp := Some now |} /\
  exists delta s3,
    Clock.pollTimer now timer s2 = Some (Some delta, s3) /\ delta == 0.
Proof.
  cbn. split; [apply lookup_insert_eq |].
  split; [apply lookup_alloc |].
  split; [intros other Hne; apply lookup_insert_ne; congruence |].
  split; [intros r Hr; apply lookup_app_l; exact Hr |].
  unfold Clock.startTimer. cbn. rewrite lookup_insert_eq. cbn.
  split; [reflexivity |].
  assert (Hs : alter (Timer.start now) (length (heap s)) (heap s ++ [Timer.new timerId])
               !! length (heap s) = Some {| name := timerId; timestamp := Some now |}).
  { rewrite list_lookup_alter, lookup_alloc. rewrite decide_True by reflexivity.
    reflexivity. }
  split; [exact Hs |].
  unfold Clock.pollTimer. cbn. rewrite Hs. cbn.
  eexists _, _. split; [reflexivity |]. ring.
Qed.

(** ** The time publisher *)

Lemma stems_refl (w : PubWorld) : stems w w.
Proof. repeat split. intros t Ht. exists t. auto. Qed.

Lemma stems_trans (w1 w2 w3 : PubWorld) : stems w1 w2 -> stems w2 w3 -> stems w1 w3.
Proof.
  intros (Hn & Hc & Hp) (Hn' & Hc' & Hp'). repeat split; [congruence | congruence |].
  intros t3 H3. destruct (Hp' t3 H3) as (t2 & H2 & Eh & Ec).
  destruct (Hp t2 H2) as (t1 & H1 & Eh' & Ec'). exists t1. repeat split; congruence.
Qed.

Lemma rearm_stems (t : PendingTimer PubCallback) (w : PubWorld) : stems w (rearm t w).
Proof.
  unfold rearm. destruct (interval t) as [p |]; cbn.
  - repeat split. cbn. intros t' Ht'.
    apply list_elem_of_fmap in Ht' as (u & -> & Hu). exists u.
    split; [exact Hu |]. destruct (handle u =? handle t)%Z; auto.
  - repeat split. cbn. intros t' Ht'.
    apply list_elem_of_filter in Ht' as [_ Ht']. exists t'. auto.
Qed.

Lemma pubExec_stems (cb : PubCallback) (w : PubWorld) : stems w (pubExec cb w).
Proof. destruct cb; cbn; [| apply stems_refl]. repeat split. intros t Ht. exists t. auto. Qed.

Lemma fire_stems (w : PubWorld) (t : PendingTimer PubCallback) :
  stems w (fire pubExec w t).
Proof.
  unfold fire. destruct (isActive (handle t) w); [| apply stems_refl].
  eapply stems_trans; [apply rearm_stems | apply pubExec_stems].
Qed.

Lemma fires_stems (l : list (PendingTimer PubCallback)) (w : PubWorld) :
  stems w (fold_left (fire pubExec) l w).
Proof.
  revert w. induction l as [| t l IH]; intros w; cbn; [apply stems_refl |].
  eapply stems_trans; [apply fire_stems | apply IH].
Qed.

Lemma tick_stems (w : PubWorld) : stems w (tick pubExec w).
Proof.
  unfold tick, runDue. eapply stems_trans; [| apply fires_stems].
  repeat split. intros t Ht. exists t. auto.
Qed.

Lemma elapse_stems (n : nat) (w : PubWorld) : stems w (elapse pubExec n w).
Proof.
  revert w. induction n as [| n IH]; intros w; cbn; [apply stems_refl |].
  eapply stems_trans; [apply tick_stems | apply IH].
Qed.

Lemma advance_stems (n : nat) (w : PubWorld) : stems w (advance pubExec n w).
Proof.
  unfold advance. eapply stems_trans; [apply fires_stems | apply elapse_stems].
Qed.

Lemma pubInv_stems (w w' : PubWorld) : stems w w' -> pubInv w -> pubInv w'.
Proof.
  intros (Hn & Hc & Hp) (Hpos & Hpub). split; [rewrite Hn; exact Hpos |].
  intros t' Ht' Hcb. destruct (Hp t' Ht') as (t & Ht & Eh & Ec).
  rewrite Hc, Eh. apply Hpub; congruence.
Qed.

Lemma quiet_stems (w w' : PubWorld) : stems w w' -> quiet w -> quiet w'.
Proof.
  intros (_ & _ & Hp) Hq t' Ht'. destruct (Hp t' Ht') as (t & Ht & _ & Ec).
  rewrite Ec. apply Hq, Ht.
Qed.

(** A timer task whose closure is not the publisher publishes nothing. *)
Lemma fire_silent (w : PubWorld) (t : PendingTimer PubCallback) :
  callback t <> PublishTime ->
  published (app (fire pubExec w t)) = published (app w).
Proof.
  intros Hcb. unfold fire. destruct (isActive (handle t) w); [| reflexivity].
  destruct (callback t) as [| k]; [contradiction |]. cbn.
  unfold rearm. destruct (interval t); reflexivity.
Qed.

Lemma fires_silent (l : list (PendingTimer PubCallback)) (w : PubWorld) :
  (forall t, t ∈ l -> callback t <> PublishTime) ->
  published (app (fold_left (fire pubExec) l w)) = published (app w).
Proof.
  revert w. induction l as [| t l IH]; intros w Hl; cbn; [reflexivity |].
  rewrite IH.
  - apply fire_silent, Hl. left.
  - intros u Hu. apply Hl. right. exact Hu.
Qed.

Lemma runDue_silent (w : PubWorld) :
  quiet w -> published (app (runDue pubExec w)) = published (app w).
Proof.
  intros Hq. unfold runDue. apply fires_silent.
  intros t Ht. apply list_elem_of_filter in Ht as [_ Ht]. apply Hq, Ht.
Qed.

Lemma tick_silent (w : PubWorld) :
  quiet w -> published (app (tick pubExec w)) = published (app w).
Proof. intros Hq. unfold tick. rewrite runDue_silent; [reflexivity | exact Hq]. Qed.

Lemma elapse_silent (n : nat) (w : PubWorld) :
  quiet w -> published (app (elapse pubExec n w)) = published (app w).
Proof.
  revert w. induction n as [| n IH]; intros w Hq; cbn; [reflexivity |].
  rewrite IH; [apply tick_silent, Hq |].
  eapply quiet_stems; [apply tick_stems | exact Hq].
Qed.

Lemma advance_silent (n : nat) (w : PubWorld) :
  quiet w -> published (app (advance pubExec n w)) = published (app w).
Proof.
  intros Hq. unfold advance. rewrite elapse_silent; [apply runDue_silent, Hq |].
  eapply quiet_stems; [apply fires_stems | exact Hq].
Qed.

(** The time and pause operations leave [timePublisherId] alone. *)
Lemma setScale_publisherId (c : Clock) (t s : Q) :
  timePublisherId (Clock.setScale t s c) = timePublisherId c.
Proof. unfold Clock.setScale. destruct (Clock.isPaused c); reflexivity. Qed.

Lemma setPaused_publisherId (c : Clock) (t : Q) (value : bool) :
  timePublisherId (snd (Clock.setPaused t value c)) = timePublisherId c.
Proof.
  unfold Clock.setPaused. cbn [snd].
  destruct value, (Clock.isPaused c) eqn:E; cbn [negb];
    unfold Clock.withPaused; cbn [timePublisherId];
    rewrite ?setScale_publisherId; reflexivity.
Qed.

Lemma onClock_inv (f : Clock -> Clock) (w : PubWorld) :
  (forall c, timePublisherId (f c) = timePublisherId c) ->
  pubInv w -> pubInv (onClock f w).
Proof.
  intros Hf (Hpos & Hpub). split; [exact Hpos |].
  intros t Ht Hcb. cbn in *. rewrite Hf. apply Hpub; assumption.
Qed.

Lemma schedule_foreign_inv (k : nat) (delay : Z) (repeat : option Z) (w : PubWorld) :
  pubInv w -> pubInv (snd (schedule (Foreign k) delay repeat w)).
Proof.
  intros (Hpos & Hpub). split; cbn; [lia |].
  intros t Ht Hcb. apply elem_of_app in Ht as [Ht | Ht].
  - apply Hpub; assumption.
  - apply list_elem_of_singleton in Ht. subst t. discriminate Hcb.
Qed.

(** Once [timePublisherId] is truthy no second interval is created; with the
    invariant a falsy [timePublisherId] means that no publisher is pending. *)
Lemma falsy_quiet (w : PubWorld) :
  pubInv w -> truthyId (timePublisherId (pubClock (app w))) = false -> quiet w.
Proof.
  intros (_ & Hpub) Hid t Ht Hcb. destruct (Hpub t Ht Hcb) as [E Hne].
  rewrite E in Hid. cbn in Hid. apply negb_false_iff, Z.eqb_eq in Hid. contradiction.
Qed.

Lemma enableTimePublisher_inv (b : bool) (w : PubWorld) :
  pubInv w -> pubInv (enableTimePublisher b w).
Proof.
  intros Hinv. unfold enableTimePublisher.
  destruct b, (truthyId (timePublisherId (pubClock (app w)))) eqn:Hid;
    cbn [negb]; try exact Hinv.
  - pose proof (falsy_quiet w Hinv Hid) as Hq. destruct Hinv as (Hpos & _).
    split; cbn; [lia |]. intros t Ht Hcb.
    apply elem_of_app in Ht as [Ht | Ht]; [destruct (Hq t Ht Hcb) |].
    apply list_elem_of_singleton in Ht. subst t. cbn. split; [reflexivity | lia].
  - destruct Hinv as (Hpos & Hpub).
    destruct (timePublisherId (pubClock (app w))) as [h |] eqn:E; [| discriminate Hid].
    split; [exact Hpos |]. cbn. intros t Ht Hcb. apply list_elem_of_filter in Ht as [Hne Ht].
    destruct (Hpub t Ht Hcb) as [E' _]. congruence.
Qed.

Lemma runOp_inv (w : PubWorld) (op : PubOp) : pubInv w -> pubInv (runOp w op).
Proof.
  intros Hinv. destruct op; cbn.
  - apply enableTimePublisher_inv, Hinv.
  - eapply pubInv_stems; [apply advance_stems | exact Hinv].
  - exact Hinv.
  - apply onClock_inv; [reflexivity | exact Hinv].
  - apply onClock_inv; [intros c; apply setScale_publisherId | exact Hinv].
  - apply onClock_inv; [intros c; apply setPaused_publisherId | exact Hinv].
  - apply schedule_foreign_inv, Hinv.
  - apply schedule_foreign_inv, Hinv.
Qed.

Lemma newPubWorld_inv (t0 : Z) (clockTimeMs : Q) : pubInv (newPubWorld t0 clockTimeMs).
Proof. split; cbn; [lia |]. intros t Ht. apply elem_of_nil in Ht. contradiction. Qed.

Lemma runOps_inv (ops : list PubOp) (w : PubWorld) : pubInv w -> pubInv (runOps ops w).
Proof.
  unfold runOps. revert w. induction ops as [| op ops IH]; intros w Hinv; cbn;
    [exact Hinv |].
  apply IH, runOp_inv, Hinv.
Qed.

(** Disabling cancels the pending publisher, whatever else is pending. *)
Lemma disable_quiet (w : PubWorld) :
  pubInv w ->
  quiet (enableTimePublisher false w) /\
  published (app (enableTimePublisher false w)) = published (app w).
Proof.
  intros Hinv. unfold enableTimePublisher.
  destruct (truthyId (timePublisherId (pubClock (app w)))) eqn:Hid; cbn [negb].
  - destruct Hinv as (_ & Hpub).
    destruct (timePublisherId (pubClock (app w))) as [h |] eqn:E; [| discriminate Hid].
    split; [| reflexivity]. cbn. intros t Ht Hcb. apply list_elem_of_filter in Ht as [Hne Ht].
    destruct (Hpub t Ht Hcb) as [E' _]. congruence.
  - split; [apply falsy_quiet; assumption | reflexivity].
Qed.

(** With no publisher pending, nothing but [enableTimePublisher(true)] can
    bring one back, and nothing is published. *)
Lemma runOp_quiet (w : PubWorld) (op : PubOp) :
  op <> EnableTimePublisher true -> quiet w ->
  quiet (runOp w op) /\ published (app (runOp w op)) = published (app w).
Proof.
  intros Hop Hq. destruct op as [[|] | n | n | x | x | v | k d | k d]; cbn.
  - contradiction.
  - unfold enableTimePublisher.
    destruct (truthyId (timePublisherId (pubClock (app w)))); cbn [negb];
      [| split; [exact Hq | reflexivity]].
    destruct (timePublisherId (pubClock (app w))) as [h |];
      (split; [| reflexivity]); cbn; [| exact Hq].
    intros t Ht. apply list_elem_of_filter in Ht as [_ Ht]. apply Hq, Ht.
  - split; [eapply quiet_stems; [apply advance_stems | exact Hq] |].
    apply advance_silent, Hq.
  - split; [exact Hq | reflexivity].
  - split; [exact Hq | reflexivity].
  - split; [exact Hq | reflexivity].
  - split; [exact Hq | reflexivity].
  - split; [| reflexivity]. intros t Ht. cbn in Ht.
    apply elem_of_app in Ht as [Ht | Ht]; [apply Hq, Ht |].
    apply list_elem_of_singleton in Ht. subst t. discriminate.
  - split; [| reflexivity]. intros t Ht. cbn in Ht.
    apply elem_of_app in Ht as [Ht | Ht]; [apply Hq, Ht |].
    apply list_elem_of_singleton in Ht. subst t. discriminate.
Qed.

Lemma runOps_quiet (ops : list PubOp) (w : PubWorld) :
  Forall (fun op => op <> EnableTimePublisher true) ops -> quiet w ->
  quiet (runOps ops w) /\ published (app (runOps ops w)) = published (app w).
Proof.
  unfold runOps. intros Hops. revert w.
  induction Hops as [| op ops Hop _ IH]; intros w Hq; cbn;
    [split; [exact Hq | reflexivity] |].
  destruct (runOp_quiet w op Hop Hq) as [Hq' Hp'].
  destruct (IH _ Hq') as [Hq'' Hp'']. split; [exact Hq'' | congruence].
Qed.

(** C9. Whatever a page did before (enabling and disabling the publisher,
    letting time pass, changing the Clock, scheduling timers of its own), once
    [enableTimePublisher(false)] has returned nothing more is published and no
    publisher timer is pending, through every later sequence of steps that
    does not call [enableTimePublisher(true)], however long the page waits:
    the interval that was pending at the moment of the call is cancelled. *)
Theorem publisher_cancellation
  (t0 : Z) (clockTimeMs : Q) (history later : list PubOp) :
  Forall (fun op => op <> EnableTimePublisher true) later ->
  let disabled :=
    runOps (history ++ [EnableTimePublisher false]) (newPubWorld t0 clockTimeMs) in
  published (app (runOps later disabled)) = published (app disabled) /\
  quiet disabled /\ quiet (runOps later disabled).
Proof.
  intros Hlater disabled.
  assert (Hq : quiet disabled).
  { unfold disabled, runOps. rewrite fold_left_app. cbn.
    apply disable_quiet, runOps_inv, newPubWorld_inv. }
  destruct (runOps_quiet later disabled Hlater Hq) as [Hq' Hp].
  repeat split; assumption.
Qed.

(** A publisher disabled with a tick overdue: nothing is published in the
    eight seconds that follow. *)
Lemma publisher_cancellation_witness :
  published (app (runOps [Wait 5000; SetScale 2; OtherInterval 3 10; Wait 3000]
                    (runOps ([EnableTimePublisher true; Wait 2999; Busy 5] ++
                             [EnableTimePublisher false]) (newPubWorld 100 0)))) =
  published (app (runOps ([EnableTimePublisher true; Wait 2999; Busy 5] ++
                          [EnableTimePublisher false]) (newPubWorld 100 0))).
Proof.
  apply (publisher_cancellation 100 0 [EnableTimePublisher true; Wait 2999; Busy 5]
           [Wait 5000; SetScale 2; OtherInterval 3 10; Wait 3000]).
  repeat constructor; discriminate.
Defined.

(** While enabled the publisher does publish, once per second; what it has
    published is all there is after it was disabled, also when it is disabled
    with a tick overdue; enabling it again makes it publish again. *)
Example publisher_runs_then_stops :
  published (app (runOps [EnableTimePublisher true; Wait 2500] (newPubWorld 100 0)))
  = [1000; 2000] /\
  published (app (runOps [EnableTimePublisher true; Wait 2500;
                          EnableTimePublisher false; Wait 5000] (newPubWorld 100 0)))
  = [1000; 2000] /\
  published (app (runOps [EnableTimePublisher true; Wait 2500;
                          EnableTimePublisher false; Wait 5000;
                          EnableTimePublisher true; Wait 1000] (newPubWorld 100 0)))
  = [1000; 2000; 8500] /\
  published (app (runOps [EnableTimePublisher true; Wait 2999; Busy 5;
                          EnableTimePublisher false; Wait 5000] (newPubWorld 100 0)))
  = [1000; 2000] /\
  published (app (runOps [EnableTimePublisher true; Wait 2999; Busy 5; Wait 0]
                    (newPubWorld 100 0)))
  = [1000; 2000; 3004].
Proof. vm_compute. repeat split; reflexivity. Qed.

(** ** throttle *)

(** Two worlds are equal when their fields are, up to integer arithmetic. *)
Ltac same_world := unfold withApp; cbn; repeat (f_equal; try lia).

Section ThrottleFacts.

Context {A : Type}.

Implicit Types (a : A) (inv : list (Z * A)) (l id : option Z).

Lemma elapse_idle (n : nat) (t nh : Z) l id inv :
  elapse throttleExec n (idleWorld t nh l id inv)
  = idleWorld (t + Z.of_nat n) nh l id inv.
Proof.
  revert t. induction n as [| n IH]; intros t; cbn [elapse].
  - f_equal. lia.
  - change (tick throttleExec (idleWorld t nh l id inv))
      with (idleWorld (t + 1) nh l id inv).
    rewrite IH. f_equal. lia.
Qed.

Lemma advance_idle (n : nat) (t nh : Z) l id inv :
  advance throttleExec n (idleWorld t nh l id inv)
  = idleWorld (t + Z.of_nat n) nh l id inv.
Proof. unfold advance. apply elapse_idle. Qed.

Lemma runDue_armed_wait (t nh h due tc : Z) a l inv :
  (t < due)%Z ->
  runDue throttleExec (armedWorld t nh h due tc a l inv)
  = armedWorld t nh h due tc a l inv.
Proof.
  intros Hlt. unfold runDue, armedWorld. cbn [pending now].
  rewrite filter_cons_False by (cbn; lia). reflexivity.
Qed.

Lemma runDue_armed_fire (t nh h due tc : Z) a l inv :
  (due <= t)%Z ->
  runDue throttleExec (armedWorld t nh h due tc a l inv)
  = idleWorld t nh (Some tc) (Some h) (inv ++ [(t, a)]).
Proof.
  intros Hle. unfold runDue, armedWorld. cbn [pending now].
  rewrite filter_cons_True by (cbn; lia). cbn [filter list_filter fold_left].
  unfold fire, isActive. cbn [pending handle existsb]. rewrite Z.eqb_refl.
  cbn [orb]. unfold rearm. cbn [interval clearTimeout handle pending withPending].
  rewrite filter_cons_False by (cbn; intros H; apply H; reflexivity).
  reflexivity.
Qed.

Lemma elapse_armed_wait (n : nat) (t nh h due tc : Z) a l inv :
  (t + Z.of_nat n < due)%Z ->
  elapse throttleExec n (armedWorld t nh h due tc a l inv)
  = armedWorld (t + Z.of_nat n) nh h due tc a l inv.
Proof.
  revert t. induction n as [| n IH]; intros t Hlt; cbn [elapse].
  - f_equal. lia.
  - unfold tick.
    change {| now := (now (armedWorld t nh h due tc a l inv) + 1)%Z;
              nextHandle := nextHandle (armedWorld t nh h due tc a l inv);
              pending := pending (armedWorld t nh h due tc a l inv);
              app := app (armedWorld t nh h due tc a l inv) |}
      with (armedWorld (t + 1) nh h due tc a l inv).
    rewrite runDue_armed_wait by lia. rewrite IH by lia. f_equal. lia.
Qed.

Lemma advance_armed_wait (n : nat) (t nh h due tc : Z) a l inv :
  (t + Z.of_nat n < due)%Z ->
  advance throttleExec n (armedWorld t nh h due tc a l inv)
  = armedWorld (t + Z.of_nat n) nh h due tc a l inv.
Proof.
  intros Hlt. unfold advance. rewrite runDue_armed_wait by lia.
  apply elapse_armed_wait, Hlt.
Qed.

(** The pending timeout runs in the turn of the loop at which it is due, and
    in no other. *)
Lemma elapse_armed_fire (n : nat) (t nh h due tc : Z) a l inv :
  (t < due)%Z -> (due <= t + Z.of_nat n)%Z ->
  elapse throttleExec n (armedWorld t nh h due tc a l inv)
  = idleWorld (t + Z.of_nat n) nh (Some tc) (Some h) (inv ++ [(due, a)]).
Proof.
  revert t. induction n as [| n IH]; intros t Hlt Hle; [lia |].
  cbn [elapse]. unfold tick.
  change {| now := (now (armedWorld t nh h due tc a l inv) + 1)%Z;
            nextHandle := nextHandle (armedWorld t nh h due tc a l inv);
            pending := pending (armedWorld t nh h due tc a l inv);
            app := app (armedWorld t nh h due tc a l inv) |}
    with (armedWorld (t + 1) nh h due tc a l inv).
  destruct (Z_lt_le_dec (t + 1) due) as [Hwait | Hdue].
  - rewrite runDue_armed_wait by lia. rewrite IH by lia. f_equal. lia.
  - rewrite runDue_armed_fire by lia. rewrite elapse_idle.
    replace due with (t + 1)%Z by lia. f_equal. lia.
Qed.

Lemma advance_armed_fire (n : nat) (t nh h due tc : Z) a l inv :
  (t < due)%Z -> (due <= t + Z.of_nat n)%Z ->
  advance throttleExec n (armedWorld t nh h due tc a l inv)
  = idleWorld (t + Z.of_nat n) nh (Some tc) (Some h) (inv ++ [(due, a)]).
Proof.
  intros Hlt Hle. unfold advance. rewrite runDue_armed_wait by lia.
  apply elapse_armed_fire; assumption.
Qed.

(** The first call: [last] starts as [now - threshold], so the delay is 0. *)
Lemma throttled_first (t1 : Z) a :
  throttled 200 a (newThrottleWorld t1)
  = armedWorld t1 2 1 t1 t1 a (Some (t1 - 200)%Z) [].
Proof.
  unfold throttled, newThrottleWorld, armedWorld. same_world.
Qed.

Lemma throttled_idle (t nh t1 : Z) id inv a :
  t1 <> 0%Z -> (t < t1 + 200)%Z ->
  throttled 200 a (idleWorld t nh (Some t1) id inv)
  = armedWorld t (nh + 1) nh (t1 + 200) t a (Some t1) inv.
Proof.
  intros Hne Hlt. unfold throttled, idleWorld, armedWorld.
  apply Z.eqb_neq in Hne.
  destruct id as [h |]; cbn; rewrite Hne; same_world.
Qed.

Lemma throttled_armed (t nh h tc t1 : Z) a0 inv a :
  t1 <> 0%Z -> (t < t1 + 200)%Z ->
  throttled 200 a (armedWorld t nh h (t1 + 200) tc a0 (Some t1) inv)
  = armedWorld t (nh + 1) nh (t1 + 200) t a (Some t1) inv.
Proof.
  intros Hne Hlt. unfold throttled, armedWorld.
  cbn [app last timeoutId now lastOr clearTimeout pending withPending].
  rewrite filter_cons_False by (cbn; intros H; apply H; reflexivity).
  apply Z.eqb_neq in Hne. rewrite Hne. same_world.
Qed.

Lemma throttled_settled (t1 t : Z) (a1 a : A) (w : ThrottleWorld A) :
  t1 <> 0%Z -> (t < t1 + 200)%Z -> settled t1 a1 t w ->
  exists nh, throttled 200 a w
             = armedWorld t (nh + 1) nh (t1 + 200) t a (Some t1) [(t1, a1)].
Proof.
  intros Hne Hlt [(nh & id & ->) | (nh & h & tc & a0 & ->)]; exists nh.
  - apply throttled_idle; assumption.
  - apply throttled_armed; assumption.
Qed.

(** Calls made before [t1 + 200] only replace the pending timeout. *)
Lemma burst_settled (t1 : Z) (a1 : A) (calls : list (A * nat)) :
  t1 <> 0%Z ->
  forall (t : Z) (w : ThrottleWorld A),
    (t + Z.of_nat (span calls) < t1 + 200)%Z -> settled t1 a1 t w ->
    settled t1 a1 (t + Z.of_nat (span calls)) (burst 200 calls w).
Proof.
  intros Hne. induction calls as [| [a gap] calls IH]; intros t w Hlt Hw.
  - cbn [burst]. replace (t + Z.of_nat (span []))%Z with t by (cbn; lia). exact Hw.
  - change (span ((a, gap) :: calls)) with (gap + span calls)%nat in *.
    cbn [burst].
    destruct (throttled_settled t1 t a1 a w Hne ltac:(lia) Hw) as [nh ->].
    rewrite advance_armed_wait by lia.
    replace (t + Z.of_nat (gap + span calls))%Z
      with (t + Z.of_nat gap + Z.of_nat (span calls))%Z by lia.
    apply IH; [lia |]. right. eauto.
Qed.

Lemma burst_app (threshold : Z) (l1 l2 : list (A * nat)) (w : ThrottleWorld A) :
  burst threshold (l1 ++ l2) w = burst threshold l2 (burst threshold l1 w).
Proof.
  revert w. induction l1 as [| [a gap] l1 IH]; intros w; cbn [burst app];
    [reflexivity | apply IH].
Qed.

(** The last call of the burst, and the wait that follows. *)
Lemma final_call (t1 t : Z) (a1 a : A) (gap idle : nat) (w : ThrottleWorld A) :
  t1 <> 0%Z -> (t < t1 + 200)%Z -> (t1 + 200 <= t + Z.of_nat gap + Z.of_nat idle)%Z ->
  settled t1 a1 t w ->
  invocations (app (advance throttleExec idle
                      (advance throttleExec gap (throttled 200 a w))))
  = [(t1, a1); ((t1 + 200)%Z, a)].
Proof.
  intros Hne Hlt Hlate Hw.
  destruct (throttled_settled t1 t a1 a w Hne Hlt Hw) as [nh ->].
  destruct (Z_lt_le_dec (t + Z.of_nat gap) (t1 + 200)) as [Hwait | Hdue].
  - rewrite advance_armed_wait by lia. rewrite advance_armed_fire by lia.
    reflexivity.
  - rewrite advance_armed_fire by lia. rewrite advance_idle. reflexivity.
Qed.

(** The state once the first call was made and the loop ran for [gap] ms. *)
Lemma first_call (t1 : Z) (a1 : A) (gap : nat) :
  settled t1 a1 (t1 + Z.of_nat gap)
    (advance throttleExec gap (throttled 200 a1 (newThrottleWorld t1))).
Proof.
  rewrite throttled_first. unfold advance.
  rewrite runDue_armed_fire by lia. rewrite elapse_idle.
  left. eauto.
Qed.

(** A burst of any length that ends before [t1 + 200]. *)
Lemma burst_after_first (t1 : Z) (first : A * nat) (mid : list (A * nat))
  (final : A * nat) (idle : nat) :
  t1 <> 0%Z ->
  (Z.of_nat (snd first + span mid) < 200)%Z ->
  (200 <= Z.of_nat (snd first + span mid + snd final + idle))%Z ->
  invocations
    (app (advance throttleExec idle
            (burst 200 (first :: mid ++ [final]) (newThrottleWorld t1))))
  = [(t1, fst first); ((t1 + 200)%Z, fst final)].
Proof.
  destruct first as [a1 g1], final as [an gn]. cbn [fst snd].
  intros Hne Hwin Hlate. cbn [burst]. rewrite burst_app. cbn [burst].
  apply (final_call t1 (t1 + Z.of_nat g1 + Z.of_nat (span mid))); try lia.
  apply burst_settled; [exact Hne | lia | apply first_call].
Qed.

End ThrottleFacts.

(** With threshold 200, ten calls 5 ms apart, each followed by a turn of the
    loop, make [fn] run twice, not once: at the time of the first call with
    its argument, and 200 ms later with the argument of the tenth call. *)
Lemma throttle_burst_runs_twice :
  let runs :=
    invocations
      (app (advance throttleExec 1000
              (burst 200
                 [(1, 5); (2, 5); (3, 5); (4, 5); (5, 5);
                  (6, 5); (7, 5); (8, 5); (9, 5); (10, 5)]%nat
                 (newThrottleWorld 1700000000000)))) in
  runs = [(1700000000000%Z, 1%nat); (1700000000200%Z, 10%nat)] /\
  length runs <> 1%nat.
Proof. vm_compute. split; [reflexivity | discriminate]. Qed.

(** C6, amended.  With threshold 200 ms and the wrapper in its initial state,
    ten calls made within 50 ms at a clock reading other than 0, the loop
    getting control after each of them, make the target run exactly twice:
    the first call's timeout has delay 0 and runs at the time of the first
    call with the first arguments, and the timeout of the tenth call runs
    200 ms after the first call with the last arguments.  The second to ninth
    calls never run. *)
Theorem throttle_burst_first_and_last {A : Type}
  (t1 : Z) (first : A * nat) (mid : list (A * nat)) (final : A * nat) (idle : nat) :
  t1 <> 0%Z ->
  length (first :: mid ++ [final]) = 10%nat ->
  (snd first + span mid <= 50)%nat ->
  (200 <= snd first + span mid + snd final + idle)%nat ->
  invocations
    (app (advance throttleExec idle
            (burst 200 (first :: mid ++ [final]) (newThrottleWorld t1))))
  = [(t1, fst first); ((t1 + 200)%Z, fst final)].
Proof.
  intros Hne _ Hwin Hlate. apply burst_after_first; [exact Hne | lia | lia].
Qed.

(** Ten calls, 5 ms apart. *)
Lemma throttle_burst_first_and_last_witness :
  invocations
    (app (advance throttleExec 1000
            (burst 200
               ((1, 5) :: [(2, 5); (3, 5); (4, 5); (5, 5);
                           (6, 5); (7, 5); (8, 5); (9, 5)] ++ [(10, 5)])%nat
               (newThrottleWorld 1700000000000))))
  = [(1700000000000%Z, fst (1, 5)%nat); ((1700000000000 + 200)%Z, fst (10, 5)%nat)].
Proof.
  apply (throttle_burst_first_and_last 1700000000000 (1, 5)%nat
           [(2, 5); (3, 5); (4, 5); (5, 5); (6, 5); (7, 5); (8, 5); (9, 5)]%nat
           (10, 5)%nat 1000).
  - discriminate.
  - reflexivity.
  - cbn. lia.
  - cbn. lia.
Defined.

(** Made back to back in one task, the ten calls make [fn] run once with the
    last arguments, but at the time of the calls, not 200 ms later. *)
Example throttle_same_task_runs_at_once :
  invocations
    (app (advance throttleExec 1000
            (sameTask 200 [1; 2; 3; 4; 5; 6; 7; 8; 9; 10]%nat
               (newThrottleWorld 1700000000000))))
  = [(1700000000000%Z, 10%nat)].
Proof. vm_compute. reflexivity. Qed.

(** * Further properties of the code *)

(** ** Conversions between units and periods *)

(** X1. On doubles, a whole number of units up to 100000, in each of the five
    units, converted to milliseconds by [unitsToMs] and back by
    [timeMsToUnits] is the number one started from.  The other order loses:
    1 ms converted to hours and back is 0.99999999999999989 ms. *)
Theorem unit_conversion_round_trip (n unit : Z) :
  ((0 <= n <= 100000)%Z -> recognized unit ->
   exists ms,
     Binary64.unitsToMs (Binary64.whole n) unit = Ok ms /\
     Binary64.timeMsToUnits ms unit = Ok (Binary64.whole n)) /\
  (exists h,
     Binary64.timeMsToUnits 1 TimeUnit.Hours = Ok h /\
     Binary64.unitsToMs h TimeUnit.Hours = Ok 0.99999999999999989%float).
Proof.
  split; [| eexists; split; vm_compute; reflexivity].
  intros Hn Hu.
  assert (Hall :
    allFrom (Z.to_nat 100001)
      (fun n =>
         forallb
           (fun u =>
              match Binary64.unitsToMs (Binary64.whole n) u with
              | Ok ms =>
                  match Binary64.timeMsToUnits ms u with
                  | Ok back => Leibniz.eqb back (Binary64.whole n)
                  | Throw _ => false
                  end
              | Throw _ => false
              end)
           [0; 1; 2; 3; 4]%Z) 0 = true) by (vm_compute; reflexivity).
  pose proof (allFrom_spec _ _ _ Hall n ltac:(lia)) as H. cbv beta in H.
  rewrite forallb_forall in H.
  assert (Hin : In unit [0; 1; 2; 3; 4]%Z) by (apply recognized_cases in Hu; cbn; lia).
  specialize (H unit Hin).
  destruct (Binary64.unitsToMs (Binary64.whole n) unit) as [ms | e] eqn:E1;
    [| discriminate H].
  destruct (Binary64.timeMsToUnits ms unit) as [back | e] eqn:E2; [| discriminate H].
  apply Leibniz.eqb_spec in H. subst back. exists ms. split; [reflexivity | exact E2].
Qed.

(** Ninety minutes, through milliseconds and back. *)
Lemma unit_conversion_round_trip_witness :
  exists ms,
    Binary64.unitsToMs (Binary64.whole 90) TimeUnit.Minutes = Ok ms /\
    Binary64.timeMsToUnits ms TimeUnit.Minutes = Ok (Binary64.whole 90).
Proof.
  apply (proj1 (unit_conversion_round_trip 90 TimeUnit.Minutes)); [lia |].
  unfold recognized. right. right. left. reflexivity.
Defined.

(** What [unitsToTimePeriod] builds once the unit was converted, in exact
    arithmetic. *)
Lemma unitsToTimePeriod_of_units (units ms : Q) (unit : Z) :
  unitsToMs units unit = Ok ms ->
  exists p,
    unitsToTimePeriod units unit = Ok p /\
    isNum (days p) (ms / 86400000) /\ isNum (hours p) 0 /\
    isNum (minutes p) 0 /\ isNum (seconds p) 0 /\ isNum (millis p) 0.
Proof.
  intros Hms. destruct unit_periods as (Ud & Uh & Um & Us & Ul).
  unfold unitsToTimePeriod. rewrite Hms. cbn [mbind result_bind].
  eexists. split; [reflexivity |].
  exact (decomposition_steps ms _ _ _ _ _ Ud Uh Um Us Ul).
Qed.

(** X2. A unit outside the enum makes [unitsToTimePeriod] and
    [timePeriodToUnits] throw, whatever the number or the period, and they
    throw in no other case. *)
Theorem period_conversions_throw_iff_unrecognized
  (x : Q) (p : TimePeriod) (unit : Z) :
  (unitsToTimePeriod x unit = Throw Error <-> ~ recognized unit) /\
  (timePeriodToUnits p unit = Throw Error <-> ~ recognized unit).
Proof.
  split; [| apply convert_throws].
  split.
  - intros Hthrow Hrec.
    destruct (convert_returns x unit (fun u mult => u * mult) Hrec) as [ms Hms].
    destruct (unitsToTimePeriod_of_units x ms unit Hms) as (q & Hq & _).
    congruence.
  - intros Hrec. unfold unitsToTimePeriod, unitsToMs.
    apply (convert_throws x unit (fun u mult => u * mult)) in Hrec.
    rewrite Hrec. reflexivity.
Qed.

(** X3. On doubles, a whole number of units up to 10000, in each of the five
    units, turned into a period by [unitsToTimePeriod] and read back by
    [timePeriodToUnits] in the same unit is the number one started from.  Not
    every number is: 19.900000000000002 hours come back as
    19.900000000000006. *)
Theorem period_round_trip_in_units (n unit : Z) :
  ((0 <= n <= 10000)%Z -> recognized unit ->
   exists p,
     Binary64.unitsToTimePeriod (Binary64.whole n) unit = Ok p /\
     Binary64.timePeriodToUnits p unit = Ok (Binary64.whole n)) /\
  (exists p,
     Binary64.unitsToTimePeriod 19.900000000000002 TimeUnit.Hours = Ok p /\
     Binary64.timePeriodToUnits p TimeUnit.Hours = Ok 19.900000000000006%float).
Proof.
  split; [| eexists; split; vm_compute; reflexivity].
  intros Hn Hu.
  assert (Hall :
    allFrom (Z.to_nat 10001)
      (fun n =>
         forallb
           (fun u =>
              match Binary64.unitsToTimePeriod (Binary64.whole n) u with
              | Ok p =>
                  match Binary64.timePeriodToUnits p u with
                  | Ok back => Leibniz.eqb back (Binary64.whole n)
                  | Throw _ => false
                  end
              | Throw _ => false
              end)
           [0; 1; 2; 3; 4]%Z) 0 = true) by (vm_compute; reflexivity).
  pose proof (allFrom_spec _ _ _ Hall n ltac:(lia)) as H. cbv beta in H.
  rewrite forallb_forall in H.
  assert (Hin : In unit [0; 1; 2; 3; 4]%Z) by (apply recognized_cases in Hu; cbn; lia).
  specialize (H unit Hin).
  destruct (Binary64.unitsToTimePeriod (Binary64.whole n) unit) as [p | e] eqn:E1;
    [| discriminate H].
  destruct (Binary64.timePeriodToUnits p unit) as [back | e] eqn:E2; [| discriminate H].
  apply Leibniz.eqb_spec in H. subst back. exists p. split; [reflexivity | exact E2].
Qed.

(** Thirty-six hours. *)
Lemma period_round_trip_in_units_witness :
  exists p,
    Binary64.unitsToTimePeriod (Binary64.whole 36) TimeUnit.Hours = Ok p /\
    Binary64.timePeriodToUnits p TimeUnit.Hours = Ok (Binary64.whole 36).
Proof.
  apply (proj1 (period_round_trip_in_units 36 TimeUnit.Hours)); [lia |].
  unfold recognized. right. right. right. left. reflexivity.
Defined.

(** X4. [timePeriodToMs] is the sum of the components weighted by 86400000,
    3600000, 60000, 1000 and 1, a component that is left out counting 0; the
    empty period lasts 0 ms. *)
Theorem timePeriodToMs_weighted_sum (p : TimePeriod) :
  timePeriodToMs p ==
    num (days p) * 86400000 + num (hours p) * 3600000 + num (minutes p) * 60000
    + num (seconds p) * 1000 + num (millis p) /\
  timePeriodToMs emptyPeriod == 0.
Proof.
  split; [| vm_compute; reflexivity].
  unfold timePeriodToMs, daysToMillis, hoursToMillis, minutesToMillis,
    secondsToMillis, millisToMills.
  rewrite !ifTruthy_num.
  assert (Hm : ifTruthy (millis p) (fun m => m) == num (millis p)).
  { destruct (millis p) as [v |]; simpl num; [| reflexivity].
    apply (ifTruthy_Some v (fun m => m)). intros ->. reflexivity. }
  rewrite Hm. simpl num. ring.
Qed.

(** ** Formatting *)

Section FormatFacts.

Variable numberToString : Q -> string.

Lemma isOne_true (v : Q) : isOne v = true <-> v == 1.
Proof. apply Qeq_bool_iff. Qed.

Lemma truthyAbove_true (k v : Q) : 0 <= k -> (truthyAbove k v = true <-> k < v).
Proof.
  intros Hk. unfold truthyAbove. rewrite andb_true_iff, !negb_true_iff. split.
  - intros [_ Hle]. apply Qnot_le_lt. intros H. apply Qle_bool_iff in H. congruence.
  - intros Hlt. split.
    + destruct (Qeq_bool v 0) eqn:E; [| reflexivity].
      apply Qeq_bool_iff in E. rewrite E in Hlt.
      exfalso. exact (Qlt_not_le _ _ Hlt Hk).
    + destruct (Qle_bool v k) eqn:E; [| reflexivity].
      apply Qle_bool_iff in E. exfalso. exact (Qlt_not_le _ _ Hlt E).
Qed.

Lemma pushWhen_nil (test : Q -> bool) (x : option Q) (suffix : string)
  (components : list string) :
  pushWhen numberToString test x suffix components = [] <->
  components = [] /\ match x with Some v => test v = false | None => True end.
Proof.
  unfold pushWhen. destruct x as [v |]; [destruct (test v) |].
  - split; [intros H; destruct components; discriminate H | intros [_ H]; discriminate H].
  - split; [intros ->; split; reflexivity | intros [-> _]; reflexivity].
  - split; [intros ->; split; [reflexivity | exact I] | intros [-> _]; reflexivity].
Qed.

(** Every string pushed ends with a unit name, so none is empty. *)
Lemma pushWhen_nonempty (test : Q -> bool) (x : option Q) (suffix : string)
  (components : list string) :
  suffix <> EmptyString ->
  Forall (fun c => c <> EmptyString) components ->
  Forall (fun c => c <> EmptyString) (pushWhen numberToString test x suffix components).
Proof.
  intros Hs Hc. unfold pushWhen. destruct x as [v |]; [destruct (test v) |]; try exact Hc.
  apply Forall_app. split; [exact Hc |]. constructor; [| constructor].
  destruct (numberToString v); [exact Hs | discriminate].
Qed.

Lemma concat_empty (sep : string) (l : list string) :
  Forall (fun c => c <> EmptyString) l ->
  (String.concat sep l = EmptyString <-> l = []).
Proof.
  intros Hl. split; [| intros ->; reflexivity].
  destruct Hl as [| x l Hx Hl]; [reflexivity |].
  destruct l as [| y l]; cbn; intros H.
  - contradiction.
  - destruct x; [contradiction | discriminate H].
Qed.

Lemma not_isOne_above (v : Q) :
  isOne v = false /\ truthyAbove 1 v = false <-> v < 1.
Proof.
  split.
  - intros [H1 H2]. destruct (Qlt_le_dec v 1) as [Hlt | Hle]; [exact Hlt |].
    exfalso. apply Qle_lteq in Hle as [Hlt | Heq].
    + apply (truthyAbove_true 1 v) in Hlt; [congruence | discriminate].
    + symmetry in Heq. apply isOne_true in Heq. congruence.
  - intros Hlt. split.
    + destruct (isOne v) eqn:E; [| reflexivity]. apply isOne_true in E.
      rewrite E in Hlt. discriminate Hlt.
    + destruct (truthyAbove 1 v) eqn:E; [| reflexivity].
      apply truthyAbove_true in E; [| discriminate].
      exfalso. exact (Qlt_not_le _ _ Hlt (Qlt_le_weak _ _ E)).
Qed.

Lemma not_above_zero (v : Q) : truthyAbove 0 v = false <-> v <= 0.
Proof.
  split.
  - intros H. apply Qnot_lt_le. intros Hlt.
    apply (truthyAbove_true 0 v) in Hlt; [congruence | apply Qle_refl].
  - intros Hle. destruct (truthyAbove 0 v) eqn:E; [| reflexivity].
    apply truthyAbove_true in E; [| apply Qle_refl].
    exfalso. exact (Qlt_not_le _ _ E Hle).
Qed.

(** The list of components before the final [join]. *)
Lemma formatPeriod_components (p : TimePeriod) :
  exists components,
    formatPeriod numberToString p = String.concat ", " components /\
    Forall (fun c => c <> EmptyString) components /\
    (components = [] <->
     belowOne (days p) /\ belowOne (hours p) /\ notPositive (minutes p) /\
     notPositive (seconds p) /\ notPositive (millis p)).
Proof.
  unfold formatPeriod. eexists. split; [reflexivity |]. split.
  - repeat (apply pushWhen_nonempty; [discriminate |]). constructor.
  - rewrite !pushWhen_nil. unfold belowOne, notPositive.
    destruct (days p) as [d |], (hours p) as [h |], (minutes p) as [m |],
      (seconds p) as [sc |], (millis p) as [l |];
      rewrite <- ?not_isOne_above, <- ?not_above_zero; tauto.
Qed.

End FormatFacts.

(** X5. [formatPeriod] returns the empty string exactly for the periods in
    which days and hours are left out or below 1, and minutes, seconds and
    millis are left out or not positive, whatever way numbers are printed:
    half a day or half an hour is not shown at all. *)
Theorem formatPeriod_empty_iff (numberToString : Q -> string) (p : TimePeriod) :
  formatPeriod numberToString p = EmptyString <->
  belowOne (days p) /\ belowOne (hours p) /\ notPositive (minutes p) /\
  notPositive (seconds p) /\ notPositive (millis p).
Proof.
  destruct (formatPeriod_components numberToString p) as (l & -> & Hne & Hiff).
  rewrite concat_empty by exact Hne. exact Hiff.
Qed.

Lemma SFcompare_refl_finite (s : bool) (m : positive) (e : Z) :
  SFcompare (S754_finite s m e) (S754_finite s m e) = Some Eq.
Proof.
  unfold SFcompare. rewrite Z.compare_refl, Pos.compare_cont_refl.
  destruct s; reflexivity.
Qed.

(** On doubles [d == 1] excludes [d > 1]. *)
Lemma one_not_above_one (d : float) :
  PrimFloat.eqb d 1 = true -> PrimFloat.ltb 1 d = false.
Proof.
  rewrite FloatAxioms.eqb_spec, FloatAxioms.ltb_spec.
  change (Prim2SF 1) with (S754_finite false 4503599627370496 (-52)).
  destruct (Prim2SF d) as [s | s | | s m e]; try (destruct s; discriminate); try discriminate.
  unfold SFeqb, SFltb, SFcompare. destruct s; [discriminate |].
  rewrite (Z.compare_antisym e (-52)).
  destruct (Z.compare_spec e (-52)) as [-> | Hlt | Hgt]; cbn [CompOpp]; try discriminate.
  change (PosDef.Pos.compare_cont Eq 4503599627370496 m)
    with (4503599627370496 ?= m)%positive.
  rewrite (Pos.compare_antisym m 4503599627370496).
  change (m ?= 4503599627370496)%positive
    with (PosDef.Pos.compare_cont Eq m 4503599627370496).
  destruct (PosDef.Pos.compare_cont Eq m 4503599627370496); try discriminate. reflexivity.
Qed.

(** [d > 1] makes [d] truthy. *)
Lemma above_one_truthy (d : float) :
  PrimFloat.ltb 1 d = true -> Binary64.truthy d = true.
Proof.
  unfold Binary64.truthy, is_zero, is_nan.
  rewrite !FloatAxioms.eqb_spec, FloatAxioms.ltb_spec.
  change (Prim2SF 1) with (S754_finite false 4503599627370496 (-52)).
  change (Prim2SF zero) with (S754_zero false).
  destruct (Prim2SF d) as [s | s | | s m e]; try discriminate.
  - destruct s; [discriminate | reflexivity].
  - intros _. unfold SFeqb at 2. rewrite SFcompare_refl_finite.
    destruct s; reflexivity.
Qed.

(** [d < 1] excludes [d == 1] and [d > 1]. *)
Lemma below_one_neither (d : float) :
  PrimFloat.ltb d 1 = true -> PrimFloat.eqb d 1 = false /\ PrimFloat.ltb 1 d = false.
Proof.
  rewrite FloatAxioms.eqb_spec, !FloatAxioms.ltb_spec.
  change (Prim2SF 1) with (S754_finite false 4503599627370496 (-52)).
  destruct (Prim2SF d) as [s | s | | s m e];
    [ destruct s; intros _; split; reflexivity
    | destruct s; [intros _; split; reflexivity | discriminate]
    | discriminate
    | ].
  unfold SFeqb, SFltb, SFcompare. destruct s; [intros _; split; reflexivity |].
  rewrite (Z.compare_antisym e (-52)).
  destruct (Z.compare_spec e (-52)) as [-> | Hlt | Hgt]; cbn [CompOpp]; try discriminate;
    [| intros _; split; reflexivity].
  change (PosDef.Pos.compare_cont Eq 4503599627370496 m)
    with (4503599627370496 ?= m)%positive.
  rewrite (Pos.compare_antisym m 4503599627370496).
  change (m ?= 4503599627370496)%positive
    with (PosDef.Pos.compare_cont Eq m 4503599627370496).
  destruct (PosDef.Pos.compare_cont Eq m 4503599627370496); try discriminate.
  intros _. split; reflexivity.
Qed.

(** What [formatPeriod] makes of a period that holds days and four zeros. *)
Lemma formatPeriod_days_only (numberToString : float -> string) (d : float) :
  Binary64.formatPeriod numberToString
    {| Binary64.days := Some d; Binary64.hours := Some 0%float;
       Binary64.minutes := Some 0%float; Binary64.seconds := Some 0%float;
       Binary64.millis := Some 0%float |}
  = String.concat ", "
      ((if Binary64.isOne d then [String.append (numberToString d) " day"] else [])
       ++ (if Binary64.truthyAbove 1 d
           then [String.append (numberToString d) " days"] else [])).
Proof.
  unfold Binary64.formatPeriod, Binary64.pushWhen.
  cbn [Binary64.days Binary64.hours Binary64.minutes Binary64.seconds Binary64.millis].
  change (Binary64.isOne 0) with false.
  change (Binary64.truthyAbove 1 0) with false.
  change (Binary64.truthyAbove 0 0) with false.
  destruct (Binary64.isOne d), (Binary64.truthyAbove 1 d); reflexivity.
Qed.

(** X6. On doubles, a finite duration in milliseconds whose days, multiplied
    by 86400000, give the duration back is formatted from its days alone:
    as nothing at all when they are below 1, as the number followed by [day]
    when they are 1, as the number followed by [days] when they are above 1.
    Without that, what the product leaves over can show:
    1.0000000000595518e23 ms are formatted as days and hours. *)
Theorem formatPeriod_of_unitsToTimePeriod
  (numberToString : float -> string) (ms : float) :
  (is_finite ms = true ->
   Binary64.timePeriodToMs (Binary64.setDays (ms / 86400000) Binary64.emptyPeriod) = ms ->
   exists p,
     Binary64.unitsToTimePeriod ms TimeUnit.Milliseconds = Ok p /\
     let d := (ms / 86400000)%float in
     (PrimFloat.ltb d 1 = true ->
      Binary64.formatPeriod numberToString p = EmptyString) /\
     (PrimFloat.eqb d 1 = true ->
      Binary64.formatPeriod numberToString p = String.append (numberToString d) " day") /\
     (PrimFloat.ltb 1 d = true ->
      Binary64.formatPeriod numberToString p
      = String.append (numberToString d) " days")) /\
  (exists p,
     Binary64.unitsToTimePeriod 1.0000000000595518e23 TimeUnit.Milliseconds = Ok p /\
     Binary64.formatPeriod numberToString p
     = String.concat ", "
         [String.append (numberToString 1157407407476333%float) " days";
          String.append (numberToString 4.6603377777777775%float) " hours"]).
Proof.
  split; [| eexists; split; [vm_compute; reflexivity | reflexivity]].
  intros Hf He. eexists. split; [exact (unitsToTimePeriod_exact ms Hf He) |].
  intros d. rewrite formatPeriod_days_only. fold d.
  unfold Binary64.isOne, Binary64.truthyAbove. split; [| split].
  - intros Hlt. destruct (below_one_neither d Hlt) as [-> ->].
    rewrite andb_false_r. reflexivity.
  - intros Heq. rewrite (one_not_above_one d Heq), Heq, andb_false_r. reflexivity.
  - intros Hgt. rewrite (above_one_truthy d Hgt), Hgt.
    destruct (PrimFloat.eqb d 1) eqn:E; [| reflexivity].
    rewrite (one_not_above_one d E) in Hgt. discriminate Hgt.
Qed.

(** A day and a half is formatted as its days. *)
Lemma formatPeriod_of_unitsToTimePeriod_witness :
  exists p,
    Binary64.unitsToTimePeriod 129600000 TimeUnit.Milliseconds = Ok p /\
    Binary64.formatPeriod (fun _ => "1.5"%string) p = "1.5 days"%string.
Proof.
  destruct (proj1 (formatPeriod_of_unitsToTimePeriod (fun _ => "1.5"%string) 129600000)
              eq_refl eq_refl)
    as (p & Hp & _ & _ & Hlong).
  exists p. split; [exact Hp | apply Hlong; reflexivity].
Defined.

(** ** Clock: the scale that was asked for, and pauses *)

Lemma getScale_setScale (c : Clock) (t s : Q) :
  Clock.getScale (Clock.setScale t s c) = s.
Proof.
  unfold Clock.getScale, Clock.setScale, Clock.isPaused.
  destruct (_isPaused c) eqn:E; cbn; rewrite E; reflexivity.
Qed.

Lemma getScale_setPaused (c : Clock) (t : Q) (value : bool) :
  Clock.getScale (snd (Clock.setPaused t value c)) = Clock.getScale c.
Proof.
  destruct value, (Clock.isPaused c) eqn:E.
  - rewrite setPaused_true_noop by exact E. reflexivity.
  - rewrite setPaused_true_running by exact E.
    unfold Clock.getScale, Clock.isPaused in *. cbn. rewrite E. reflexivity.
  - rewrite setPaused_false_paused by exact E.
    unfold Clock.getScale, Clock.isPaused in *. cbn. rewrite E. reflexivity.
  - unfold Clock.setPaused. rewrite E. reflexivity.
Qed.

(** X7. Through any sequence of [setTime], [setScale] and [setPaused] calls,
    [getScale()] returns the argument of the last [setScale], or what it
    returned before the sequence when there was none: pausing and resuming
    do not show in it, and a scale set while paused is returned at once. *)
Theorem getScale_is_requested_scale (ks : list ClockCall) (c : Clock) :
  Clock.getScale (clockCalls ks c) = requestedScale ks (Clock.getScale c).
Proof.
  unfold clockCalls, requestedScale. revert c.
  induction ks as [| k ks IH]; intros c; cbn [fold_left]; [reflexivity |].
  rewrite IH. f_equal. destruct k as [now x | now s | now v]; cbn [clockCall].
  - reflexivity.
  - apply getScale_setScale.
  - apply getScale_setPaused.
Qed.

(** A paused Clock has scale 0: true of a new Clock and kept by every call. *)
Lemma paused_scale_zero_step (c : Clock) (k : ClockCall) :
  (Clock.isPaused c = true -> scale c = 0) ->
  Clock.isPaused (clockCall c k) = true -> scale (clockCall c k) = 0.
Proof.
  intros Hinv. destruct k as [now x | now s | now v]; cbn [clockCall].
  - exact Hinv.
  - unfold Clock.setScale. destruct (Clock.isPaused c) eqn:E; cbn.
    + intros _. apply Hinv. reflexivity.
    + unfold Clock.isPaused in *. cbn. congruence.
  - destruct v, (Clock.isPaused c) eqn:E.
    + rewrite setPaused_true_noop by exact E. cbn. intros _. apply Hinv. reflexivity.
    + rewrite setPaused_true_running by exact E. reflexivity.
    + rewrite setPaused_false_paused by exact E. discriminate.
    + unfold Clock.setPaused. rewrite E. cbn. congruence.
Qed.

Lemma paused_scale_zero (ks : list ClockCall) (c : Clock) :
  (Clock.isPaused c = true -> scale c = 0) ->
  Clock.isPaused (clockCalls ks c) = true -> scale (clockCalls ks c) = 0.
Proof.
  unfold clockCalls. revert c.
  induction ks as [| k ks IH]; intros c Hinv; cbn [fold_left]; [exact Hinv |].
  apply IH. apply paused_scale_zero_step, Hinv.
Qed.

(** X8. A Clock built by [new Clock(...)] and driven by any sequence of
    [setTime], [setScale] and [setPaused] calls reads, whenever it is paused,
    the same time at every instant, and its [scale] field is 0 then. *)
Theorem paused_clock_is_frozen (t0 clockTimeMs : Q) (ks : list ClockCall) :
  let c := clockCalls ks (Clock.new t0 clockTimeMs) in
  Clock.isPaused c = true ->
  scale c = 0 /\ forall t t', Clock.getTime t c == Clock.getTime t' c.
Proof.
  intros c Hp.
  assert (Hz : scale c = 0) by (apply paused_scale_zero; [discriminate | exact Hp]).
  split; [exact Hz |]. intros t t'. unfold Clock.getTime. rewrite Hz. ring.
Qed.

(** Paused at 5 after a change of scale, a Clock reads at 9 what it reads at
    100. *)
Lemma paused_clock_is_frozen_witness :
  Clock.getTime 9
    (clockCalls [CallSetScale 1 3; CallSetPaused 5 true; CallSetScale 7 2]
       (Clock.new 0 50)) ==
  Clock.getTime 100
    (clockCalls [CallSetScale 1 3; CallSetPaused 5 true; CallSetScale 7 2]
       (Clock.new 0 50)).
Proof.
  exact (proj2 (paused_clock_is_frozen 0 50
                  [CallSetScale 1 3; CallSetPaused 5 true; CallSetScale 7 2]
                  eq_refl) 9 100).
Defined.

(** ** Timers by name and by handle *)

Lemma clockCall_timers (c : Clock) (k : ClockCall) : timers (clockCall c k) = timers c.
Proof.
  destruct k as [now x | now s | now v]; cbn [clockCall].
  - reflexivity.
  - unfold Clock.setScale. destruct (Clock.isPaused c); reflexivity.
  - destruct v, (Clock.isPaused c) eqn:E.
    + rewrite setPaused_true_noop by exact E. reflexivity.
    + rewrite setPaused_true_running by exact E. reflexivity.
    + rewrite setPaused_false_paused by exact E. reflexivity.
    + unfold Clock.setPaused. rewrite E. reflexivity.
Qed.

Lemma wf_createTimer (timerId : string) (s : Store) :
  wfStore s -> wfStore (snd (Clock.createTimer timerId s)).
Proof.
  intros Hwf n r. cbn. rewrite length_app. cbn.
  destruct (decide (timerId = n)) as [-> | Hne].
  - rewrite lookup_insert_eq. intros [= <-]. lia.
  - rewrite lookup_insert_ne by exact Hne. intros H. apply Hwf in H. lia.
Qed.

Lemma wf_startTimer (now : Q) (timerId : string) (s : Store) :
  wfStore s -> wfStore (snd (Clock.startTimer now timerId s)).
Proof.
  intros Hwf. unfold Clock.startTimer.
  destruct (timers (clock s) !! timerId) as [r |] eqn:E.
  - intros n r'. cbn. rewrite length_alter. apply Hwf.
  - pose proof (wf_createTimer timerId s Hwf) as Hwf'.
    destruct (Clock.createTimer timerId s) as [r s1]. cbn in *.
    intros n r'. cbn. rewrite length_alter. apply Hwf'.
Qed.

Lemma wf_pollTimer (now : Q) (timer : nat) (s s' : Store) (d : option Q) :
  wfStore s -> Clock.pollTimer now timer s = Some (d, s') -> wfStore s'.
Proof.
  intros Hwf. unfold Clock.pollTimer. destruct (heap s !! timer) as [tm |]; [| discriminate].
  cbn. intros [= _ <-]. intros n r. cbn. rewrite length_insert. apply Hwf.
Qed.

Lemma wf_getDelta (now : Q) (timerId : string) (s : Store) :
  wfStore s -> wfStore (snd (Clock.getDelta now timerId s)).
Proof.
  intros Hwf. unfold Clock.getDelta.
  destruct (timers (clock s) !! timerId) as [r |]; [| exact Hwf].
  destruct (Clock.pollTimer now r s) as [[d s'] |] eqn:E; [| exact Hwf].
  cbn. eapply wf_pollTimer; eassumption.
Qed.

Lemma wf_storeCall (s : Store) (k : StoreCall) : wfStore s -> wfStore (storeCall s k).
Proof.
  intros Hwf. destruct k as [k | id | now id | now id | now r]; cbn [storeCall].
  - intros n r. cbn. rewrite clockCall_timers. apply Hwf.
  - apply wf_createTimer, Hwf.
  - apply wf_startTimer, Hwf.
  - apply wf_getDelta, Hwf.
  - destruct (Clock.pollTimer now r s) as [[d s'] |] eqn:E; [| exact Hwf].
    eapply wf_pollTimer; eassumption.
Qed.

Lemma wf_storeCalls (ks : list StoreCall) (s : Store) :
  wfStore s -> wfStore (storeCalls ks s).
Proof.
  unfold storeCalls. revert s.
  induction ks as [| k ks IH]; intros s Hwf; cbn [fold_left]; [exact Hwf |].
  apply IH, wf_storeCall, Hwf.
Qed.

Lemma wf_newStore (now clockTimeMs : Q) : wfStore (newStore now clockTimeMs).
Proof. intros n r. cbn. rewrite lookup_empty. discriminate. Qed.

(** X9. In the store reached from a new Clock by any sequence of calls, every
    registered name refers to a Timer that exists; so [getDelta(name)] is
    [undefined] exactly when no Timer was ever created or started under that
    name, and then it changes nothing. *)
Theorem getDelta_undefined_iff_unregistered
  (t0 clockTimeMs : Q) (ks : list StoreCall) (now : Q) (timerId : string) :
  let s := storeCalls ks (newStore t0 clockTimeMs) in
  wfStore s /\
  (fst (Clock.getDelta now timerId s) = None <-> timers (clock s) !! timerId = None) /\
  (timers (clock s) !! timerId = None -> snd (Clock.getDelta now timerId s) = s).
Proof.
  intros s.
  assert (Hwf : wfStore s) by apply wf_storeCalls, wf_newStore.
  split; [exact Hwf |]. unfold Clock.getDelta.
  destruct (timers (clock s) !! timerId) as [r |] eqn:E.
  - split; [| discriminate]. split; [| discriminate].
    apply Hwf in E. apply lookup_lt_is_Some_2 in E as [tm Htm].
    unfold Clock.pollTimer. rewrite Htm. cbn. discriminate.
  - split; [split; reflexivity | reflexivity].
Qed.

(** What [startTimer] leaves behind. *)
Lemma startTimer_started (now : Q) (timerId : string) (s : Store) :
  wfStore s ->
  let r := fst (Clock.startTimer now timerId s) in
  let s1 := snd (Clock.startTimer now timerId s) in
  timers (clock s1) !! timerId = Some r /\
  (exists n, heap s1 !! r = Some {| name := n; timestamp := Some now |}) /\
  scale (clock s1) = scale (clock s) /\
  (timers (clock s) !! timerId = None -> length (heap s1) = S (length (heap s))) /\
  (forall r0, timers (clock s) !! timerId = Some r0 ->
              r = r0 /\ length (heap s1) = length (heap s)).
Proof.
  intros Hwf. unfold Clock.startTimer.
  destruct (timers (clock s) !! timerId) as [r0 |] eqn:E; cbn.
  - split; [exact E |].
    pose proof (Hwf _ _ E) as Hlt. apply lookup_lt_is_Some_2 in Hlt as [tm Htm].
    split; [exists (name tm); rewrite list_lookup_alter_eq, Htm; reflexivity |].
    split; [reflexivity |]. split; [discriminate |].
    intros r1 [= <-]. split; [reflexivity | apply length_alter].
  - split; [apply lookup_insert_eq |].
    split; [exists timerId; rewrite list_lookup_alter_eq, lookup_alloc; reflexivity |].
    split; [reflexivity |].
    split; [intros _; rewrite length_alter, length_app; cbn; lia | discriminate].
Qed.

(** X10. The handle returned by [startTimer(name)] and the entry found by
    [getDelta(name)] are one Timer: after a poll by name at [p1], which
    reports the scale times [p1 - p0], a poll through the handle at [p2]
    measures from [p1], not from the start [p0]. *)
Theorem timer_polls_share_sample_point
  (t0 clockTimeMs : Q) (ks : list StoreCall) (timerId : string) (p0 p1 p2 : Q) :
  let s := storeCalls ks (newStore t0 clockTimeMs) in
  let timer := fst (Clock.startTimer p0 timerId s) in
  let s1 := snd (Clock.startTimer p0 timerId s) in
  exists s2 s3,
    Clock.getDelta p1 timerId s1 = (Some (Some (scale (clock s) * (p1 - p0))), s2) /\
    Clock.pollTimer p2 timer s2 = Some (Some (scale (clock s) * (p2 - p1)), s3).
Proof.
  intros s timer s1.
  assert (Hwf : wfStore s) by apply wf_storeCalls, wf_newStore.
  destruct (startTimer_started p0 timerId s Hwf) as (Hreg & (n & Hheap) & Hscale & _).
  fold timer in Hreg, Hheap. fold s1 in Hreg, Hheap, Hscale.
  unfold Clock.getDelta. rewrite Hreg. unfold Clock.pollTimer at 1. rewrite Hheap. cbn.
  rewrite Hscale. eexists _, _. split; [reflexivity |].
  unfold Clock.pollTimer. cbn.
  rewrite list_lookup_insert_eq by (apply lookup_lt_Some in Hheap; exact Hheap). cbn.
  rewrite Hscale. reflexivity.
Qed.

(** X11. [startTimer(name)] creates a Timer only when the name is new: in the
    store reached from a new Clock by any sequence of calls, a second
    [startTimer(name)] returns the Timer of the first, allocates nothing and
    moves its sample point to the new instant. *)
Theorem startTimer_reuses_timer
  (t0 clockTimeMs : Q) (ks : list StoreCall) (timerId : string) (p0 p1 : Q) :
  let s := storeCalls ks (newStore t0 clockTimeMs) in
  let timer := fst (Clock.startTimer p0 timerId s) in
  let s1 := snd (Clock.startTimer p0 timerId s) in
  let s2 := snd (Clock.startTimer p1 timerId s1) in
  (length (heap s1) <= S (length (heap s)))%nat /\
  fst (Clock.startTimer p1 timerId s1) = timer /\
  length (heap s2) = length (heap s1) /\
  exists n, heap s2 !! timer = Some {| name := n; timestamp := Some p1 |}.
Proof.
  intros s timer s1 s2.
  assert (Hwf : wfStore s) by apply wf_storeCalls, wf_newStore.
  destruct (startTimer_started p0 timerId s Hwf) as (Hreg & _ & _ & Hnew & Hold).
  fold timer in Hreg, Hold. fold s1 in Hreg, Hnew, Hold.
  assert (Hwf1 : wfStore s1) by (apply wf_startTimer; exact Hwf).
  destruct (startTimer_started p1 timerId s1 Hwf1) as (_ & Hheap & _ & _ & Hold1).
  destruct (Hold1 timer Hreg) as [Er El]. fold s2 in Hheap, El.
  split.
  - destruct (timers (clock s) !! timerId) as [r0 |] eqn:E.
    + destruct (Hold r0 eq_refl) as [_ ->]. lia.
    + rewrite (Hnew eq_refl). lia.
  - split; [exact Er |]. split; [exact El |]. rewrite Er in Hheap. exact Hheap.
Qed.

(** X12. [createTimer(name)] under a name in use leaves the earlier Timer
    out of the register: [startTimer(name)] then starts the new Timer, and
    the earlier one, still held by whoever created it, stays without a
    timestamp, so that its next [getDelta()] is NaN. *)
Theorem createTimer_twice_orphans_first (s : Store) (timerId : string) (now : Q) :
  let first := fst (Clock.createTimer timerId s) in
  let s1 := snd (Clock.createTimer timerId s) in
  let second := fst (Clock.createTimer timerId s1) in
  let s2 := snd (Clock.createTimer timerId s1) in
  let s3 := snd (Clock.startTimer now timerId s2) in
  second <> first /\
  fst (Clock.startTimer now timerId s2) = second /\
  heap s3 !! second = Some {| name := timerId; timestamp := Some now |} /\
  heap s3 !! first = Some {| name := timerId; timestamp := None |} /\
  (fst <$> Clock.pollTimer now first s3) = Some None.
Proof.
  cbn. split; [rewrite length_app; cbn; lia |].
  unfold Clock.startTimer. cbn. rewrite lookup_insert_eq. cbn.
  split; [reflexivity |].
  assert (H2 : alter (Timer.start now) (length (heap s ++ [Timer.new timerId]))
                 ((heap s ++ [Timer.new timerId]) ++ [Timer.new timerId])
               !! length (heap s ++ [Timer.new timerId])
               = Some {| name := timerId; timestamp := Some now |}).
  { rewrite list_lookup_alter_eq, lookup_alloc. reflexivity. }
  assert (H1 : alter (Timer.start now) (length (heap s ++ [Timer.new timerId]))
                 ((heap s ++ [Timer.new timerId]) ++ [Timer.new timerId])
               !! length (heap s)
               = Some {| name := timerId; timestamp := None |}).
  { rewrite list_lookup_alter_ne by (rewrite length_app; cbn; lia).
    rewrite lookup_app_l by (rewrite length_app; cbn; lia).
    apply lookup_alloc. }
  split; [exact H2 |]. split; [exact H1 |].
  unfold Clock.pollTimer. cbn. rewrite H1. reflexivity.
Qed.

(** ** Timers across changes of the Clock *)

(** X13. [getDelta()] applies the scale of the moment of the poll to the
    whole time since the last sample.  When [setScale(newScale)] was called
    in between on a Clock that is not paused, whenever that was and whatever
    the scale before, the poll reports [newScale * (p1 - p0)]: the part of
    the interval that ran at the old scale is counted at the new one. *)
Theorem timer_delta_across_setScale
  (c : Clock) (tm : Timer) (p0 p1 dc newScale : Q) :
  Clock.isPaused c = false ->
  fst (Timer.getDelta p1 (Clock.setScale dc newScale c) (Timer.start p0 tm))
  = Some (newScale * (p1 - p0)).
Proof.
  intros Hrun. destruct (setScale_running c dc newScale Hrun) as [Hs _].
  unfold Timer.getDelta, Timer.start. cbn [timestamp fst]. rewrite Hs. reflexivity.
Qed.

(** A timer started at 0 on a new Clock whose scale goes from 1 to 3 at 40:
    polled at 100 it reports 3 * 100. *)
Lemma timer_delta_across_setScale_witness :
  fst (Timer.getDelta 100 (Clock.setScale 40 3 (Clock.new 0 0))
         (Timer.start 0 (Timer.new "AnimationTimer")))
  = Some (3 * (100 - 0)).
Proof.
  apply (timer_delta_across_setScale (Clock.new 0 0) (Timer.new "AnimationTimer")
           0 100 40 3).
  reflexivity.
Defined.

(** X14. A pause does not stop a Timer's sample point.  On a Clock running at
    scale [S], paused and later resumed: a poll made during the pause reports
    0 times the time since the last sample, and a poll made after the
    resumption, with none in between, reports [S] times the whole time since
    the start, the time spent paused included, whenever the pause began and
    ended. *)
Theorem timer_delta_across_pause
  (c : Clock) (tm : Timer) (p0 p1 dp dr : Q) :
  Clock.isPaused c = false ->
  let paused := snd (Clock.setPaused dp true c) in
  let resumed := snd (Clock.setPaused dr false paused) in
  let started := Timer.start p0 tm in
  fst (Timer.getDelta p1 paused started) = Some (0 * (p1 - p0)) /\
  fst (Timer.getDelta p1 resumed started) = Some (scale c * (p1 - p0)).
Proof.
  intros Hrun paused resumed started. unfold resumed, paused.
  rewrite (setPaused_true_running c dp Hrun). cbn [snd].
  rewrite setPaused_false_paused by reflexivity. cbn [snd].
  split; reflexivity.
Qed.

(** A new Clock paused from 30 to 70: a timer started at 0 and polled at 100
    reports 1 * 100. *)
Lemma timer_delta_across_pause_witness :
  fst (Timer.getDelta 100
         (snd (Clock.setPaused 70 false (snd (Clock.setPaused 30 true (Clock.new 0 0)))))
         (Timer.start 0 (Timer.new "AnimationTimer")))
  = Some (1 * (100 - 0)).
Proof.
  exact (proj2 (timer_delta_across_pause (Clock.new 0 0) (Timer.new "AnimationTimer")
                  0 100 30 70 eq_refl)).
Defined.

(** ** The time publisher: one interval, one tick per second *)

Lemma rearm_publisherTimers (t : PendingTimer PubCallback) (w : PubWorld) :
  (publisherTimers (rearm t w) <= publisherTimers w)%nat.
Proof.
  unfold publisherTimers, rearm. destruct (interval t) as [p |]; cbn.
  - induction (pending w) as [| u l IH]; [reflexivity |].
    rewrite fmap_cons, !filter_cons.
    assert (Hcb : callback (if (handle u =? handle t)%Z
                            then {| handle := handle u; due := (now w + p)%Z;
                                    interval := interval u; callback := callback u |}
                            else u) = callback u)
      by (destruct (handle u =? handle t)%Z; reflexivity).
    rewrite Hcb. destruct (decide (callback u = PublishTime)); cbn; lia.
  - induction (pending w) as [| u l IH]; [reflexivity |].
    rewrite (filter_cons (fun t0 => handle t0 <> handle t)).
    destruct (decide (handle u <> handle t)).
    + rewrite !filter_cons. destruct (decide (callback u = PublishTime)); cbn; lia.
    + rewrite (filter_cons _ u l). destruct (decide (callback u = PublishTime)); cbn; lia.
Qed.

Lemma fire_publisherTimers (w : PubWorld) (t : PendingTimer PubCallback) :
  (publisherTimers (fire pubExec w t) <= publisherTimers w)%nat.
Proof.
  unfold fire. destruct (isActive (handle t) w); [| reflexivity].
  transitivity (publisherTimers (rearm t w)); [| apply rearm_publisherTimers].
  destruct (callback t); reflexivity.
Qed.

Lemma fires_publisherTimers (l : list (PendingTimer PubCallback)) (w : PubWorld) :
  (publisherTimers (fold_left (fire pubExec) l w) <= publisherTimers w)%nat.
Proof.
  revert w. induction l as [| t l IH]; intros w; cbn; [reflexivity |].
  etransitivity; [apply IH | apply fire_publisherTimers].
Qed.

Lemma advance_publisherTimers (n : nat) (w : PubWorld) :
  (publisherTimers (advance pubExec n w) <= publisherTimers w)%nat.
Proof.
  unfold advance.
  assert (He : forall m v, (publisherTimers (elapse pubExec m v) <= publisherTimers v)%nat).
  { induction m as [| m IH]; intros v; cbn; [reflexivity |].
    etransitivity; [apply IH |]. unfold tick, runDue.
    etransitivity; [apply fires_publisherTimers | reflexivity]. }
  etransitivity; [apply He | apply fires_publisherTimers].
Qed.

Lemma quiet_publisherTimers (w : PubWorld) : quiet w -> publisherTimers w = 0%nat.
Proof.
  unfold quiet, publisherTimers. intros Hq.
  induction (pending w) as [| u l IH]; [reflexivity |].
  rewrite filter_cons. destruct (decide (callback u = PublishTime)) as [E | _].
  - exfalso. apply (Hq u); [left | exact E].
  - apply IH. intros t Ht. apply Hq. right. exact Ht.
Qed.

Lemma runOp_publisherTimers (w : PubWorld) (op : PubOp) :
  pubInv w -> (publisherTimers w <= 1)%nat -> (publisherTimers (runOp w op) <= 1)%nat.
Proof.
  intros Hinv Hle. destruct op as [[|] | n | n | x | x | v | k d | k d]; cbn [runOp].
  - unfold enableTimePublisher.
    destruct (truthyId (timePublisherId (pubClock (app w)))) eqn:Hid; [exact Hle |].
    pose proof (quiet_publisherTimers w (falsy_quiet w Hinv Hid)) as H0.
    unfold publisherTimers in *. cbn. rewrite filter_app, length_app, H0.
    match goal with
    | |- context [length (filter ?P ?l)] => pose proof (length_filter P l) as Hf
    end.
    cbn [length] in Hf. lia.
  - unfold enableTimePublisher.
    destruct (truthyId (timePublisherId (pubClock (app w)))) eqn:Hid; cbn [negb];
      [| exact Hle].
    destruct (disable_quiet w Hinv) as [Hq _]. unfold enableTimePublisher in Hq.
    rewrite Hid in Hq. cbn [negb] in Hq. rewrite (quiet_publisherTimers _ Hq). lia.
  - etransitivity; [apply advance_publisherTimers | exact Hle].
  - exact Hle.
  - exact Hle.
  - exact Hle.
  - exact Hle.
  - unfold publisherTimers in *. cbn. rewrite filter_app, length_app.
    rewrite filter_cons_False by discriminate. cbn. lia.
  - unfold publisherTimers in *. cbn. rewrite filter_app, length_app.
    rewrite filter_cons_False by discriminate. cbn. lia.
Qed.

(** X15. Whatever a page did since its Clock was new, at most one publisher
    interval is pending, and [enableTimePublisher] is idempotent: enabling
    twice in a row, or disabling twice in a row, leaves the state of the
    first call. *)
Theorem enableTimePublisher_idempotent
  (t0 : Z) (clockTimeMs : Q) (history : list PubOp) (isEnabled : bool) :
  let w := runOps history (newPubWorld t0 clockTimeMs) in
  (publisherTimers w <= 1)%nat /\
  enableTimePublisher isEnabled (enableTimePublisher isEnabled w)
  = enableTimePublisher isEnabled w.
Proof.
  intros w. split.
  - unfold w, runOps.
    assert (H : forall ops v, pubInv v -> (publisherTimers v <= 1)%nat ->
                              (publisherTimers (fold_left runOp ops v) <= 1)%nat).
    { induction ops as [| op ops IH]; intros v Hinv Hle; cbn; [exact Hle |].
      apply IH; [apply runOp_inv, Hinv | apply runOp_publisherTimers; assumption]. }
    apply H; [apply newPubWorld_inv | cbn; lia].
  - assert (Hinv : pubInv w) by apply runOps_inv, newPubWorld_inv.
    destruct Hinv as (Hpos & _). unfold enableTimePublisher at 2 3.
    destruct isEnabled, (truthyId (timePublisherId (pubClock (app w)))) eqn:Hid;
      cbn [negb].
    + unfold enableTimePublisher. rewrite Hid. reflexivity.
    + unfold enableTimePublisher. cbn.
      destruct (nextHandle w =? 0)%Z eqn:E; [apply Z.eqb_eq in E; lia | reflexivity].
    + unfold enableTimePublisher. cbn. reflexivity.
    + unfold enableTimePublisher. rewrite Hid. reflexivity.
Qed.

Lemma elapse_add {Cb App : Type} (exec : Cb -> World Cb App -> World Cb App)
  (a b : nat) (w : World Cb App) :
  elapse exec (a + b) w = elapse exec b (elapse exec a w).
Proof. revert w. induction a as [| a IH]; intros w; cbn; [reflexivity | apply IH]. Qed.

Lemma runDue_ticking_wait (t nh h due : Z) (c : Clock) (l : list Q) :
  (t < due)%Z ->
  runDue pubExec (tickingWorld t nh h due c l) = tickingWorld t nh h due c l.
Proof.
  intros Hlt. unfold runDue, tickingWorld. cbn [pending now].
  rewrite filter_cons_False by (cbn; lia). reflexivity.
Qed.

Lemma runDue_ticking_fire (t nh h due : Z) (c : Clock) (l : list Q) :
  (due <= t)%Z ->
  runDue pubExec (tickingWorld t nh h due c l)
  = tickingWorld t nh h (t + 1000) c (l ++ [Clock.getTime (inject_Z t) c]).
Proof.
  intros Hle. unfold runDue, tickingWorld. cbn [pending now].
  rewrite filter_cons_True by (cbn; lia). cbn [filter list_filter fold_left].
  unfold fire, isActive. cbn [pending handle existsb]. rewrite Z.eqb_refl.
  cbn [orb]. unfold rearm. cbn [interval handle pending withPending fmap list_fmap now].
  rewrite Z.eqb_refl. reflexivity.
Qed.

Lemma tick_ticking (t nh h due : Z) (c : Clock) (l : list Q) :
  tick pubExec (tickingWorld t nh h due c l)
  = runDue pubExec (tickingWorld (t + 1) nh h due c l).
Proof. reflexivity. Qed.

Lemma elapse_ticking_wait (n : nat) (t nh h due : Z) (c : Clock) (l : list Q) :
  (t + Z.of_nat n < due)%Z ->
  elapse pubExec n (tickingWorld t nh h due c l)
  = tickingWorld (t + Z.of_nat n) nh h due c l.
Proof.
  revert t. induction n as [| n IH]; intros t Hlt; cbn [elapse].
  - f_equal. lia.
  - rewrite tick_ticking, runDue_ticking_wait by lia. rewrite IH by lia. f_equal. lia.
Qed.

(** One period: 999 idle turns of the loop, then the tick. *)
Lemma elapse_ticking_period (t nh h : Z) (c : Clock) (l : list Q) :
  elapse pubExec 1000 (tickingWorld t nh h (t + 1000) c l)
  = tickingWorld (t + 1000) nh h (t + 1000 + 1000) c
      (l ++ [Clock.getTime (inject_Z (t + 1000)) c]).
Proof.
  change 1000%nat with (999 + 1)%nat. rewrite elapse_add.
  rewrite elapse_ticking_wait by lia. cbn [elapse].
  rewrite tick_ticking.
  replace (t + Z.of_nat 999 + 1)%Z with (t + 1000)%Z by lia.
  apply runDue_ticking_fire. lia.
Qed.

Lemma tickPayloads_S (t : Z) (c : Clock) (m : nat) :
  tickPayloads t c (S m)
  = tickPayloads t c m ++ [Clock.getTime (inject_Z (t + 1000 * Z.of_nat m + 1000)) c].
Proof.
  unfold tickPayloads. rewrite seq_S, map_app. cbn [map Nat.add]. do 4 f_equal. lia.
Qed.

Lemma elapse_ticking_periods (m : nat) (t nh h : Z) (c : Clock) (l : list Q) :
  elapse pubExec (m * 1000) (tickingWorld t nh h (t + 1000) c l)
  = tickingWorld (t + 1000 * Z.of_nat m) nh h (t + 1000 * Z.of_nat m + 1000) c
      (l ++ tickPayloads t c m).
Proof.
  induction m as [| m IH].
  - cbn [Nat.mul elapse]. unfold tickPayloads. cbn [seq map]. rewrite app_nil_r.
    f_equal; lia.
  - replace (S m * 1000)%nat with (m * 1000 + 1000)%nat by lia.
    rewrite elapse_add, IH, elapse_ticking_period, tickPayloads_S, app_assoc.
    f_equal; lia.
Qed.

(** X16. On a page with nothing else pending and a Clock that is left alone,
    the publisher enabled at [t] has published exactly [m] times after
    [m * 1000 + r] ms, for every [r] below 1000; the payload of the [k]-th
    tick is [getTime()] as read at [t + 1000 * k]. *)
Theorem publisher_ticks_once_per_second
  (t nh : Z) (c : Clock) (l : list Q) (m r : nat) :
  truthyId (timePublisherId c) = false ->
  (r < 1000)%nat ->
  published (app (advance pubExec (m * 1000 + r)
                    (enableTimePublisher true (idlePage t nh c l))))
  = l ++ tickPayloads t c m.
Proof.
  intros Hid Hr. unfold enableTimePublisher, idlePage. cbn [app pubClock].
  rewrite Hid.
  change (let '(h, w1) :=
            setInterval PublishTime 1000
              {| now := t; nextHandle := nh; pending := [];
                 app := {| pubClock := c; published := l |} |} in
          setPublisherId (Some h) w1)
    with (tickingWorld t (nh + 1) nh (t + 1000)
            (Clock.withPublisherId (Some nh) c) l).
  unfold advance. rewrite runDue_ticking_wait by lia.
  rewrite elapse_add, elapse_ticking_periods, elapse_ticking_wait by lia.
  reflexivity.
Qed.

(** A new Clock set to 0 at time 100: after 3.5 s, three ticks, with payloads
    1000, 2000 and 3000. *)
Lemma publisher_ticks_once_per_second_witness :
  published (app (advance pubExec (3 * 1000 + 500)
                    (enableTimePublisher true
                       (idlePage 100 1 (Clock.new (inject_Z 100) 0) []))))
  = [] ++ tickPayloads 100 (Clock.new (inject_Z 100) 0) 3.
Proof.
  apply (publisher_ticks_once_per_second 100 1 (Clock.new (inject_Z 100) 0) [] 3 500).
  - reflexivity.
  - lia.
Defined.

(** ** throttle: the first call, and the spacing of the runs *)

Section ThrottleSpacing.

Context {A : Type}.

Implicit Types (a : A) (inv : list (Z * A)) (id : option Z).




End ThrottleSpacing.




(** ** toIsoString *)

Lemma length_append (s1 s2 : string) :
  String.length (String.append s1 s2) = (String.length s1 + String.length s2)%nat.
Proof.
  induction s1 as [| ch s1 IH]; [reflexivity |].
  change (S (String.length (String.append s1 s2))
          = S (String.length s1 + String.length s2)).
  f_equal. exact IH.
Qed.

Lemma append_assoc (s1 s2 s3 : string) :
  String.append (String.append s1 s2) s3 = String.append s1 (String.append s2 s3).
Proof.
  induction s1 as [| ch s1 IH]; [reflexivity |].
  change (String ch (String.append (String.append s1 s2) s3)
          = String ch (String.append s1 (String.append s2 s3))).
  f_equal. exact IH.
Qed.

(** Checked on each number of the range. *)
Lemma pad_two_characters (num : Z) :
  (0 <= num <= 99)%Z -> String.length (pad num) = 2%nat.
Proof.
  intros Hr.
  assert (Hall : forallb (fun n => Nat.eqb (String.length (pad n)) 2) (seqZ 0 100) = true)
    by (vm_compute; reflexivity).
  rewrite forallb_forall in Hall. apply Nat.eqb_eq, Hall, list_elem_of_In, elem_of_seqZ.
  lia.
Qed.

Lemma year_four_characters (year : Z) :
  (1000 <= year <= 9999)%Z -> String.length (pretty year) = 4%nat.
Proof.
  intros Hr.
  assert (Hall : forallb (fun n => Nat.eqb (String.length (pretty n)) 4) (seqZ 1000 9000)
                 = true) by (vm_compute; reflexivity).
  rewrite forallb_forall in Hall. apply Nat.eqb_eq, Hall, list_elem_of_In, elem_of_seqZ.
  lia.
Qed.

(** The layout of the chain of [+], for any strings of these lengths. *)
Lemma iso_layout (y mo d h mi s sign zh zm : string) :
  String.length y = 4%nat -> String.length mo = 2%nat -> String.length d = 2%nat ->
  String.length h = 2%nat -> String.length mi = 2%nat -> String.length s = 2%nat ->
  String.length sign = 1%nat -> String.length zh = 2%nat -> String.length zm = 2%nat ->
  let whole :=
    fold_left String.append
      ["-"; mo; "-"; d; "T"; h; ":"; mi; ":"; s; sign; zh; ":"; zm]%string y in
  String.length whole = 25%nat /\
  exists body zone,
    whole = String.append body (String.append sign zone) /\
    String.length body = 19%nat /\ String.length zone = 5%nat.
Proof.
  intros Hy Hmo Hd Hh Hmi Hs Hsign Hzh Hzm whole. unfold whole. cbn [fold_left].
  split.
  - rewrite !length_append, Hy, Hmo, Hd, Hh, Hmi, Hs, Hsign, Hzh, Hzm. reflexivity.
  - exists (fold_left String.append ["-"; mo; "-"; d; "T"; h; ":"; mi; ":"; s]%string y),
      (String.append zh (String.append ":" zm)).
    cbn [fold_left].
    split; [rewrite !append_assoc; reflexivity |]. split.
    + rewrite !length_append, Hy, Hmo, Hd, Hh, Hmi, Hs. reflexivity.
    + rewrite !length_append, Hzh, Hzm. reflexivity.
Qed.

(** X19. For a date whose fields are in their ranges and whose year has four
    digits, [toIsoString] returns 25 characters: 19 for the date and the
    time, then the sign of the offset to UTC, which is [+] exactly when
    [getTimezoneOffset()] is not positive, then 5 for the offset. *)
Theorem toIsoString_shape (date : DateFields) :
  fourDigitYearDate date ->
  String.length (toIsoString date) = 25%nat /\
  exists body zone,
    toIsoString date
    = String.append body
        (String.append (if (getTimezoneOffset date <=? 0)%Z then "+" else "-") zone) /\
    String.length body = 19%nat /\ String.length zone = 5%nat.
Proof.
  intros (Hy & Hmo & Hd & Hh & Hmi & Hs & Hz).
  assert (Hq : (0 <= Z.abs (- getTimezoneOffset date) / 60 <= 99)%Z).
  { split; [apply Z.div_pos; lia |].
    assert (Z.abs (- getTimezoneOffset date) / 60 < 100)%Z
      by (apply Z.div_lt_upper_bound; lia).
    lia. }
  assert (Hr : (0 <= Z.abs (- getTimezoneOffset date) mod 60 <= 99)%Z).
  { pose proof (Z.mod_pos_bound (Z.abs (- getTimezoneOffset date)) 60). lia. }
  assert (Hsign : (if (0 <=? - getTimezoneOffset date)%Z then "+" else "-")%string
                  = (if (getTimezoneOffset date <=? 0)%Z then "+" else "-")%string).
  { destruct (Z.leb_spec 0 (- getTimezoneOffset date)),
      (Z.leb_spec (getTimezoneOffset date) 0); try reflexivity; lia. }
  unfold toIsoString. rewrite Hsign.
  apply iso_layout.
  - apply year_four_characters, Hy.
  - apply pad_two_characters. lia.
  - apply pad_two_characters. lia.
  - apply pad_two_characters. lia.
  - apply pad_two_characters. lia.
  - apply pad_two_characters. lia.
  - destruct (getTimezoneOffset date <=? 0)%Z; reflexivity.
  - apply pad_two_characters, Hq.
  - apply pad_two_characters, Hr.
Qed.

(** 3 November 2026, 07:05:59, five hours west of Greenwich. *)
Lemma toIsoString_shape_witness :
  String.length
    (toIsoString {| getTimezoneOffset := 300; getFullYear := 2026; getMonth := 10;
                    getDate := 3; getHours := 7; getMinutes := 5; getSeconds := 59 |})
  = 25%nat.
Proof.
  apply (toIsoString_shape
           {| getTimezoneOffset := 300; getFullYear := 2026; getMonth := 10;
              getDate := 3; getHours := 7; getMinutes := 5; getSeconds := 59 |}).
  unfold fourDigitYearDate. cbn. lia.
Defined.

(** The same date as the function prints it. *)
Example toIsoString_example :
  toIsoString {| getTimezoneOffset := 300; getFullYear := 2026; getMonth := 10;
                 getDate := 3; getHours := 7; getMinutes := 5; getSeconds := 59 |}
  = "2026-11-03T07:05:59-05:00"%string.
Proof. vm_compute. reflexivity. Qed.

(** ** A Timer polled frame after frame *)

Lemma pollEach_started (c : Clock) (instants : list Q) (tm : Timer) (p0 : Q) :
  timestamp tm = Some p0 ->
  pollEach c instants tm = map Some (scaledSteps (scale c) p0 instants).
Proof.
  revert tm p0. induction instants as [| p rest IH]; intros tm p0 Hts; [reflexivity |].
  cbn [pollEach scaledSteps map]. unfold Timer.getDelta. rewrite Hts.
  rewrite (IH {| name := name tm; timestamp := Some p |} p eq_refl). reflexivity.
Qed.

(** X20. A started Timer polled any number of times on a Clock that is left
    alone reports a number at every poll, never NaN: the scale times the time
    since the poll before it, or since the start for the first.  A Timer that
    was created and not started reports NaN at its first poll, and from then
    on numbers in the same way. *)
Theorem timer_polls_measure_from_previous_poll
  (c : Clock) (timerId : string) (p0 p : Q) (instants : list Q) :
  pollEach c instants (Timer.start p0 (Timer.new timerId))
  = map Some (scaledSteps (scale c) p0 instants) /\
  pollEach c (p :: instants) (Timer.new timerId)
  = None :: map Some (scaledSteps (scale c) p instants).
Proof.
  split; [apply pollEach_started; reflexivity |].
  cbn [pollEach]. unfold Timer.getDelta at 1. cbn [timestamp Timer.new].
  erewrite pollEach_started by reflexivity. reflexivity.
Qed.
